(** * jamiblossum: a Zi Wei Dou Shu chart front end

    Shallow embedding of [src/time.py], [src/ziwei.py] and, of
    [src/render.py], the palace header of both renderers, the fallback
    renderer [render_text] with its star lists, and the star list of the
    primary renderer, together with the properties of the time-bucket
    converter, the gender normaliser, the adaptive engine invoker and the
    text formatter.

    Python values are modelled as follows.
    - [int] is [Z] (unbounded).
    - [str] is a list of Unicode code points ([list N]); literals are
      written [py "..."] and decoded from the UTF-8 bytes of the Rocq
      string.
    - a [set] literal is a [gset], a [dict] and the keyword arguments of a
      call are a [gmap] with string keys.
    - a raised exception is the [Raise] case of [result]; code that calls
      an external callable threads the callable's state explicitly. *)

From Stdlib Require Import ZArith NArith Ascii String List Lia DecimalString.
From stdpp Require Import gmap strings list fin_maps.

Local Open Scope N_scope.

(** ** Python strings *)

Module Py.

(** A [str]: the sequence of its code points. *)
Definition str : Type := list N.

(** Code points of a UTF-8 byte sequence (used for literals only; an
    ill-formed sequence ends the text). *)
Fixpoint utf8_decode (bs : list N) : str :=
  match bs with
  | [] => []
  | b0 :: r0 =>
    if b0 <? 0x80 then b0 :: utf8_decode r0
    else if b0 <? 0xE0 then
      match r0 with
      | b1 :: r1 =>
        (N.shiftl (N.land b0 0x1F) 6 + N.land b1 0x3F) :: utf8_decode r1
      | _ => []
      end
    else if b0 <? 0xF0 then
      match r0 with
      | b1 :: b2 :: r2 =>
        (N.shiftl (N.land b0 0x0F) 12 + N.shiftl (N.land b1 0x3F) 6
         + N.land b2 0x3F) :: utf8_decode r2
      | _ => []
      end
    else
      match r0 with
      | b1 :: b2 :: b3 :: r3 =>
        (N.shiftl (N.land b0 0x07) 18 + N.shiftl (N.land b1 0x3F) 12
         + N.shiftl (N.land b2 0x3F) 6 + N.land b3 0x3F) :: utf8_decode r3
      | _ => []
      end
  end.

Definition py (s : string) : str :=
  utf8_decode (map N_of_ascii (list_ascii_of_string s)).
Arguments py s%_string.

(** [Py_UNICODE_ISSPACE]: the characters [str.strip] removes. *)
Definition isspace (c : N) : bool :=
  ((0x09 <=? c) && (c <=? 0x0D)) || ((0x1C <=? c) && (c <=? 0x20))
  || (c =? 0x85) || (c =? 0xA0) || (c =? 0x1680)
  || ((0x2000 <=? c) && (c <=? 0x200A))
  || (c =? 0x2028) || (c =? 0x2029) || (c =? 0x202F) || (c =? 0x205F)
  || (c =? 0x3000).

(** [Py_ISSPACE]: the ASCII white space the integer parser skips. *)
Definition c_isspace (c : N) : bool :=
  ((0x09 <=? c) && (c <=? 0x0D)) || (c =? 0x20).

Fixpoint lstrip (s : str) : str :=
  match s with
  | c :: r => if isspace c then lstrip r else s
  | [] => []
  end.

Definition rstrip (s : str) : str := rev (lstrip (rev s)).

(** [s.strip()] *)
Definition strip (s : str) : str := rstrip (lstrip s).

(** [s.split(sep)] for a one-character separator. *)
Fixpoint split (sep : N) (s : str) : list str :=
  match s with
  | [] => [[]]
  | c :: r =>
    if c =? sep then [] :: split sep r
    else match split sep r with
         | p :: ps => (c :: p) :: ps
         | [] => [[c]]
         end
  end.

(** [sep.join(items)] *)
Fixpoint join (sep : str) (items : list str) : str :=
  match items with
  | [] => []
  | [x] => x
  | x :: r => x ++ sep ++ join sep r
  end.

(** What the interpreter's Unicode character database contributes beyond
    ASCII.  The tables themselves are not part of this repository, so they
    are a parameter of every function that consults them.
    - [to_decimal c]: the decimal digit value of a non-ASCII code point
      ([Py_UNICODE_TODECIMAL]), if it is a decimal digit;
    - [to_lower before c after]: the lower-case expansion of a non-ASCII
      code point that is neither a Hangul syllable nor a CJK ideograph, in
      its context (the expansion of capital sigma depends on it);
    - [max_str_digits]: the interpreter's limit on the number of digits
      [int] converts ([0] when there is none). *)
Record unicode_db : Type := {
  to_decimal : N -> option N;
  to_lower : str -> N -> str -> str;
  max_str_digits : N
}.

(** A database with no non-ASCII digit, no non-ASCII case mapping and no
    digit limit: enough for text made of ASCII, Hangul and ideographs. *)
Definition plain_db : unicode_db :=
  {| to_decimal := fun _ => None;
     to_lower := fun _ c _ => [c];
     max_str_digits := 0 |}.

(** Lower-casing of one ASCII character, the identity elsewhere: what
    [lower] is compared with on ASCII text. *)
Definition ascii_lower (c : N) : N :=
  if (0x41 <=? c) && (c <=? 0x5A) then c + 0x20 else c.

(** Hangul syllables and CJK unified ideographs have no case. *)
Definition caseless (c : N) : bool :=
  ((0xAC00 <=? c) && (c <=? 0xD7A3)) || ((0x4E00 <=? c) && (c <=? 0x9FFF)).

Section WithUnicode.
Variable ucd : unicode_db.

Definition lower_char (before : str) (c : N) (after : str) : str :=
  if (0x41 <=? c) && (c <=? 0x5A) then [c + 0x20]
  else if c <? 0x80 then [c]
  else if caseless c then [c]
  else to_lower ucd before c after.

Fixpoint lower_from (before : str) (s : str) : str :=
  match s with
  | [] => []
  | c :: r => lower_char before c r ++ lower_from (before ++ [c]) r
  end.

(** [s.lower()] *)
Definition lower (s : str) : str := lower_from [] s.

(** The first pass of [int(s)]: ASCII is kept, other white space becomes a
    blank, other decimal digits become ASCII digits, anything else makes
    the literal invalid. *)
Definition to_ascii_char (c : N) : option N :=
  if c <? 0x80 then Some c
  else if isspace c then Some 0x20
  else match to_decimal ucd c with
       | Some d => Some (0x30 + d)
       | None => None
       end.

Fixpoint to_ascii (s : str) : option str :=
  match s with
  | [] => Some []
  | c :: r =>
    match to_ascii_char c, to_ascii r with
    | Some a, Some r' => Some (a :: r')
    | _, _ => None
    end
  end.

Definition is_digit (c : N) : bool := (0x30 <=? c) && (c <=? 0x39).
Definition digit_value (c : N) : Z := Z.of_N (c - 0x30).

Fixpoint skip_space (s : str) : str :=
  match s with
  | c :: r => if c_isspace c then skip_space r else s
  | [] => []
  end.

(** The digit scan: digits, with single underscores between digits only.
    Returns the value, the number of digits and the unread rest. *)
Fixpoint scan_digits (acc : Z) (n : N) (s : str) : option (Z * N * str) :=
  match s with
  | [] => Some (acc, n, [])
  | c :: r =>
    if is_digit c then scan_digits (acc * 10 + digit_value c)%Z (n + 1) r
    else if c =? 0x5F then
      match r with
      | d :: r' =>
        if is_digit d
        then scan_digits (acc * 10 + digit_value d)%Z (n + 1) r'
        else None
      | [] => None
      end
    else Some (acc, n, s)
  end.

(** Literals of at most this many digits are never checked against the
    interpreter's digit limit. *)
Definition int_digits_threshold : N := 640.

Definition parse_unsigned (s : str) : option Z :=
  match s with
  | c :: _ =>
    if is_digit c then
      match scan_digits 0%Z 0 s with
      | Some (v, n, rest) =>
        match skip_space rest with
        | [] =>
          if (int_digits_threshold <? n) && (0 <? max_str_digits ucd)
             && (max_str_digits ucd <? n)
          then None else Some v
        | _ :: _ => None
        end
      | None => None
      end
    else None
  | [] => None
  end.

(** [int(s)] for a [str] argument; [None] is the [ValueError] it raises. *)
Definition int (s : str) : option Z :=
  match to_ascii s with
  | None => None
  | Some a =>
    match skip_space a with
    | c :: r =>
      if c =? 0x2B then parse_unsigned r
      else if c =? 0x2D then Z.opp <$> parse_unsigned r
      else parse_unsigned (c :: r)
    | [] => None
    end
  end.

End WithUnicode.

(** Exceptions, by class.  [TypeError] stands for that class and its
    subclasses, [Exception] for any class outside the three named ones. *)
Inductive exception : Type :=
| TypeError (msg : str)
| ValueError (msg : str)
| RuntimeError (msg : str)
| Exception (cls : string) (msg : str).

Definition is_TypeError (e : exception) : bool :=
  match e with TypeError _ => true | _ => false end.

(** The outcome of evaluating an expression that may raise. *)
Inductive result (A : Type) : Type :=
| Return (a : A)
| Raise (e : exception).
Arguments Return {A} a.
Arguments Raise {A} e.

(** The values that occur as arguments and attributes. *)
Inductive value : Type :=
| VNone
| VBool (b : bool)
| VInt (z : Z)
| VStr (s : str).

#[global] Instance exception_eq_dec : EqDecision exception.
Proof. solve_decision. Defined.
#[global] Instance result_eq_dec {A} `{EqDecision A} : EqDecision (result A).
Proof. solve_decision. Defined.
#[global] Instance value_eq_dec : EqDecision value.
Proof. solve_decision. Defined.

(** Truth value testing ([if x:]). *)
Definition truthy (v : value) : bool :=
  match v with
  | VNone => false
  | VBool b => b
  | VInt z => negb (z =? 0)%Z
  | VStr s => negb (bool_decide (s = []))
  end.

End Py.

Import Py.

(** ** [src/time.py] *)

Module Time.

Record ClockTime : Type := { hour : Z; minute : Z }.

Section WithUnicode.
Variable ucd : unicode_db.

(** [parts] has length two exactly when it is [[p0; p1]]; the two
    conversions share one handler, which reports either failure alike. *)
Definition parse_hhmm (value : option str) : result ClockTime :=
  match value with
  | None => Raise (ValueError (py "time is required"))
  | Some value =>
    let text := strip value in
    let parts := split 0x3A text in
    match parts with
    | [p0; p1] =>
      match int ucd p0, int ucd p1 with
      | Some hour, Some minute =>
        if negb ((0 <=? hour) && (hour <=? 23))%Z
        then Raise (ValueError (py "hour must be 0..23"))
        else if negb ((0 <=? minute) && (minute <=? 59))%Z
        then Raise (ValueError (py "minute must be 0..59"))
        else Return {| hour := hour; minute := minute |}
      | _, _ => Raise (ValueError (py "time must be numeric HH:MM"))
      end
    | _ => Raise (ValueError (py "time must be in HH:MM format"))
    end
  end.

End WithUnicode.

Definition time_to_index (hour minute : Z) : result Z :=
  if negb ((0 <=? hour) && (hour <=? 23))%Z
  then Raise (ValueError (py "hour must be 0..23"))
  else if negb ((0 <=? minute) && (minute <=? 59))%Z
  then Raise (ValueError (py "minute must be 0..59"))
  else if (hour =? 23)%Z then Return 0%Z
  else if (hour =? 0)%Z then Return 12%Z
  else Return ((hour - 1) / 2 + 1)%Z.

Definition hhmm_to_index (ucd : unicode_db) (value : option str) : result Z :=
  match parse_hhmm ucd value with
  | Return t => time_to_index (hour t) (minute t)
  | Raise e => Raise e
  end.

(** The specification's notion of a malformed time text, in its own
    words, against which [parse_hhmm] is compared.  [colon_parts text
    parts]: [parts] are the colon-separated parts of [text]. *)
Definition colon_parts (text : str) (parts : list str) : Prop :=
  parts <> [] /\ Forall (fun p => 0x3A ∉ p) parts /\ text = join [0x3A] parts.

Inductive malformed (ucd : unicode_db) (text : str) : Prop :=
| wrong_part_count (parts : list str) :
    colon_parts text parts -> length parts <> 2%nat -> malformed ucd text
| non_integer_component (h m : str) :
    colon_parts text [h; m] ->
    int ucd h = None \/ int ucd m = None -> malformed ucd text
| out_of_range (h m : str) (hour minute : Z) :
    colon_parts text [h; m] ->
    int ucd h = Some hour -> int ucd m = Some minute ->
    ~ ((0 <= hour <= 23)%Z /\ (0 <= minute <= 59)%Z) -> malformed ucd text.

(** The messages [parse_hhmm] reports for a text that is not [None]. *)
Definition parse_errors : list str :=
  [py "time must be in HH:MM format"; py "time must be numeric HH:MM";
   py "hour must be 0..23"; py "minute must be 0..59"].

End Time.


(** ** Calls of an external callable

    A callable of the chart engine is outside the program: a call may
    return, raise, and change the callable's own state (a stub that
    records its calls, for instance).  [M S A] is a computation over the
    state [S] of the callable that returns an [A] or raises. *)

Module Call.

Definition M (S A : Type) : Type := S -> result A * S.

Definition ret {S A} (a : A) : M S A := fun s => (Return a, s).
Definition raise {S A} (e : exception) : M S A := fun s => (Raise e, s).
Definition bind {S A B} (m : M S A) (k : A -> M S B) : M S B :=
  fun s => match m s with
           | (Return a, s') => k a s'
           | (Raise e, s') => (Raise e, s')
           end.

(** [try: body / except TypeError as exc: handler] *)
Definition try_except_TypeError {S A}
    (body : M S A) (handler : exception -> M S A) : M S A :=
  fun s => match body s with
           | (Return a, s') => (Return a, s')
           | (Raise e, s') =>
             if is_TypeError e then handler e s' else (Raise e, s')
           end.

#[global] Instance M_ret {S} : MRet (M S) := @ret S.
#[global] Instance M_bind {S} : MBind (M S) := fun A B k m => bind m k.

(** A call of [fn] with positional and keyword arguments. *)
Definition callable (S R : Type) : Type :=
  list value -> gmap string value -> M S R.

(** The arguments of one call. *)
Definition call : Type := list value * gmap string value.

(** A callable that also appends every call it receives to a log. *)
Definition recording {S R} (fn : callable S R) : callable (S * list call) R :=
  fun args kwargs st =>
    let '(r, s') := fn args kwargs (fst st) in
    (r, (s', snd st ++ [(args, kwargs)])).

End Call.

Import Call.

(** ** [src/ziwei.py] *)

Module Ziwei.

(** [gender] is the raw input, normalised by [create_chart]; it is [None]
    when no gender was given. *)
Record ChartRequest : Type := {
  calendar : str;
  date : str;
  time_index : Z;
  gender : option str;
  language : str;
  is_leap_month : bool;
  fix_leap : bool
}.

Definition male : gset str :=
  {[ py "m"; py "male"; py "man"; py "남"; py "남자"; py "남성"; py "男" ]}.
Definition female : gset str :=
  {[ py "f"; py "female"; py "woman"; py "여"; py "여자"; py "여성"; py "女" ]}.

Definition normalize_gender (ucd : unicode_db) (value : option str)
  : result str :=
  match value with
  | None => Raise (ValueError (py "gender is required"))
  | Some value =>
    let v := lower ucd (strip value) in
    if bool_decide (v ∈ male) then Return (py "男")
    else if bool_decide (v ∈ female) then Return (py "女")
    else Raise (ValueError (py "gender must be one of: male/female, 남/여"))
  end.

Definition optional_keys : list string :=
  ["language"; "fix_leap"; "fixLeap"; "is_leap_month"; "isLeapMonth"]%string.

Section Invoker.
Context {S R : Type}.

(** The [for key in optional_keys] loop: [Some r] when an attempt
    returned [r], [None] when the loop ran to its end. *)
Fixpoint retry_dropping (fn : callable S R) (args : list value)
    (kwargs : gmap string value) (keys : list string) : M S (option R) :=
  match keys with
  | [] => mret None
  | key :: keys' =>
    match kwargs !! key with
    | None => retry_dropping fn args kwargs keys'
    | Some _ =>
      let kw2 := delete key kwargs in
      try_except_TypeError
        (r ← fn args kw2; mret (Some r))
        (fun _ => retry_dropping fn args kwargs keys')
    end
  end.

Definition _call_astro (fn : callable S R) (args : list value)
    (kwargs : gmap string value) : M S R :=
  try_except_TypeError
    (fn args kwargs)
    (fun exc =>
       found ← retry_dropping fn args kwargs optional_keys;
       match found with
       | Some r => mret r
       | None =>
         try_except_TypeError (fn args ∅) (fun _ => raise exc)
       end).

(** The [astro] module of the engine: each entry point may be missing. *)
Record astro_module : Type := {
  by_solar : option (callable S R);
  bySolar : option (callable S R);
  by_lunar : option (callable S R);
  byLunar : option (callable S R)
}.

Definition solar_kwargs (req : ChartRequest) : gmap string value :=
  <["language" := VStr (language req)]>
  (<["fix_leap" := VBool (fix_leap req)]>
  (<["fixLeap" := VBool (fix_leap req)]> ∅)).

Definition lunar_kwargs (req : ChartRequest) : gmap string value :=
  <["language" := VStr (language req)]>
  (<["is_leap_month" := VBool (is_leap_month req)]>
  (<["isLeapMonth" := VBool (is_leap_month req)]>
  (<["fix_leap" := VBool (fix_leap req)]>
  (<["fixLeap" := VBool (fix_leap req)]> ∅)))).

(** [a or b] on two attribute look-ups that default to [None]. *)
Definition or_else {A} (a b : option A) : option A :=
  match a with Some _ => a | None => b end.

(** [astro] is [None] when the engine cannot be imported. *)
Definition create_chart (ucd : unicode_db) (astro : option astro_module)
    (req : ChartRequest) : M S R :=
  if negb ((0 <=? time_index req) && (time_index req <=? 12))%Z
  then raise (ValueError (py "timeIndex must be 0..12"))
  else
    match normalize_gender ucd (gender req) with
    | Raise e => raise e
    | Return gender =>
      match astro with
      | None =>
        raise (RuntimeError (py
          "Missing dependency: iztro-py. Install with: python -m pip install iztro-py"))
      | Some astro =>
        let by_solar := or_else (by_solar astro) (bySolar astro) in
        let by_lunar := or_else (by_lunar astro) (byLunar astro) in
        let args := [VStr (date req); VInt (time_index req); VStr gender] in
        if bool_decide (calendar req = py "solar") then
          match by_solar with
          | None => raise (RuntimeError (py "iztro-py astro.by_solar() not found"))
          | Some fn => _call_astro fn args (solar_kwargs req)
          end
        else if bool_decide (calendar req = py "lunar") then
          match by_lunar with
          | None => raise (RuntimeError (py "iztro-py astro.by_lunar() not found"))
          | Some fn => _call_astro fn args (lunar_kwargs req)
          end
        else raise (ValueError (py "unsupported calendar: " ++ calendar req))
      end
    end.

End Invoker.

End Ziwei.

(** ** [src/render.py]: the header line of a palace

    Both renderers build the header of a palace from its name, its stem
    and branch labels and its two flags.  The primary renderer reads the
    flags as attributes of the engine's palace object, the fallback
    renderer as keys of the exported mapping. *)

Module Render.

(** [getattr(p, name, default)] on the attributes of an object. *)
Definition getattr (p : gmap string value) (name : string) (dflt : value)
  : value := default dflt (p !! name).

(** [p.get(key)] on a mapping. *)
Definition dict_get (p : gmap string value) (key : string) : value :=
  default VNone (p !! key).

(** The bracketed flag text: the flags joined by blanks, or nothing when
    the list of flags is empty. *)
Definition flag_txt (flags : list str) : str :=
  match flags with
  | [] => []
  | _ :: _ => py " [" ++ join (py " ") flags ++ py "]"
  end.

(** [render_chart], the flags of palace [p] and its header line. *)
Definition render_chart_flags (p : gmap string value) : list str :=
  (if truthy (getattr p "is_body_palace" (VBool false))
   then [py "body"] else [])
  ++ (if truthy (getattr p "is_original_palace" (VBool false))
      then [py "origin"] else []).

Definition render_chart_header (name hs eb : str) (p : gmap string value)
  : str :=
  rstrip (py "- " ++ name ++ py " " ++ hs ++ eb
          ++ flag_txt (render_chart_flags p)).

(** [render_text], the flags of palace entry [p] and its header line. *)
Definition render_text_flags (p : gmap string value) : list str :=
  (if truthy (dict_get p "isBodyPalace") then [py "body"] else [])
  ++ (if truthy (dict_get p "isOriginalPalace") then [py "origin"] else []).

Definition render_text_header (name hs eb : str) (p : gmap string value)
  : str :=
  py "- " ++ name ++ py " " ++ hs ++ eb ++ flag_txt (render_text_flags p).

End Render.

(** ** [src/render.py]: the fallback renderer

    [render_text] works on the exported mapping of a chart: plain data,
    that is scalars, lists and mappings with string keys (a [float] does
    not occur in it and is not modelled).  The text [str] gives for a list
    or a mapping is the interpreter's and is a parameter. *)

Module RenderText.
Import Render.

#[warnings="-register-all"]
Inductive data : Type :=
| Scalar (v : value)
| DList (items : list data)
| DDict (entries : gmap string data).

(** [str(z)] for an [int]. *)
Definition str_of_int (z : Z) : str := py (NilZero.string_of_int (Z.to_int z)).

(** [str(v)] for a scalar. *)
Definition str_value (v : value) : str :=
  match v with
  | VNone => py "None"
  | VBool true => py "True"
  | VBool false => py "False"
  | VInt z => str_of_int z
  | VStr s => s
  end.

(** Truth value testing. *)
Definition truth (d : data) : bool :=
  match d with
  | Scalar v => truthy v
  | DList items => negb (Nat.eqb (length items) 0)
  | DDict entries => negb (Nat.eqb (size entries) 0)
  end.

(** [type(d).__name__] *)
Definition type_name (d : data) : str :=
  match d with
  | Scalar VNone => py "NoneType"
  | Scalar (VBool _) => py "bool"
  | Scalar (VInt _) => py "int"
  | Scalar (VStr _) => py "str"
  | DList _ => py "list"
  | DDict _ => py "dict"
  end.

(** [m.get(key, dflt)] *)
Definition get (m : gmap string data) (key : string) (dflt : data) : data :=
  default dflt (m !! key).

(** The empty text and [None], the two defaults of the look-ups. *)
Definition empty : data := Scalar (VStr []).
Definition none : data := Scalar VNone.

(** The exception of [d.get] on a value that is no mapping. *)
Definition no_get (d : data) : exception :=
  Exception "AttributeError"
    (py "'" ++ type_name d ++ py "' object has no attribute 'get'").

(** The exception of iterating over a value that cannot be iterated. *)
Definition not_iterable (d : data) : exception :=
  TypeError (py "'" ++ type_name d ++ py "' object is not iterable").

(** The items a [for] loop over [d] visits: the items of a list, the
    characters of a text, the keys of a mapping (in the order of the
    mapping, which the outcome of the loops below does not depend on). *)
Definition iterate (d : data) : result (list data) :=
  match d with
  | DList items => Return items
  | Scalar (VStr s) => Return ((fun c => Scalar (VStr [c])) <$> s)
  | DDict entries =>
    Return ((fun kv => Scalar (VStr (py kv.1))) <$> map_to_list entries)
  | Scalar _ => Raise (not_iterable d)
  end.

(** [f(x)] for each [x] of a list, in order, up to the first that raises. *)
Fixpoint for_each {A B} (f : A -> result B) (xs : list A) : result (list B) :=
  match xs with
  | [] => Return []
  | x :: xs' =>
    match f x with
    | Raise e => Raise e
    | Return y =>
      match for_each f xs' with
      | Raise e => Raise e
      | Return ys => Return (y :: ys)
      end
    end
  end.

(** [x for x in items if x] on texts. *)
Definition non_empty (items : list str) : list str :=
  filter (fun x => x <> []) items.

(** [", ".join(items) if items else "-"] *)
Definition join_or_dash (items : list str) : str :=
  match items with
  | [] => py "-"
  | _ :: _ => join (py ", ") items
  end.

(** [x or dflt] on texts. *)
Definition or_text (x dflt : str) : str :=
  match x with [] => dflt | _ :: _ => x end.

Section WithRepr.
(** [str(d)] for a list or a mapping. *)
Variable repr : data -> str.

(** [str(d)] *)
Definition py_str (d : data) : str :=
  match d with
  | Scalar v => str_value v
  | _ => repr d
  end.

Definition _format_star (star : data) : result str :=
  match star with
  | DDict star =>
    let name := strip (py_str (get star "name" empty)) in
    match name with
    | [] => Return []
    | _ :: _ =>
      let b := get star "brightness" empty in
      let brightness := strip (py_str (if truth b then b else empty)) in
      match brightness with
      | _ :: _ => Return (name ++ py "(" ++ brightness ++ py ")")
      | [] => Return name
      end
    end
  | _ => Raise (no_get star)
  end.

Definition _format_star_list (stars : data) : result str :=
  if negb (truth stars) then Return (py "-")
  else
    match iterate stars with
    | Raise e => Raise e
    | Return stars =>
      match for_each _format_star stars with
      | Raise e => Raise e
      | Return items => Return (join_or_dash (non_empty items))
      end
    end.

(** [add_kv(key, label)] of [render_text]: the lines it appends. *)
Definition add_kv (data : gmap string data) (key : string) (label : str)
  : list str :=
  match get data key none with
  | Scalar VNone => []
  | val =>
    match strip (py_str val) with
    | [] => []
    | s => [label ++ py ": " ++ s]
    end
  end.

(** The lines of the top-level fields, in the order of the source. *)
Definition field_lines (data : gmap string data) : list str :=
  add_kv data "solarDate" (py "Solar")
  ++ add_kv data "lunarDate" (py "Lunar")
  ++ add_kv data "chineseDate" (py "Ganzhi")
  ++ add_kv data "time" (py "Time")
  ++ add_kv data "timeRange" (py "TimeRange")
  ++ add_kv data "zodiac" (py "Zodiac")
  ++ add_kv data "sign" (py "Sign")
  ++ add_kv data "earthlyBranchOfSoulPalace" (py "SoulPalace")
  ++ add_kv data "earthlyBranchOfBodyPalace" (py "BodyPalace")
  ++ add_kv data "soul" (py "SoulStar")
  ++ add_kv data "body" (py "BodyStar")
  ++ add_kv data "fiveElementsClass" (py "FiveElementsClass").

(** The names of the adjective stars: of the items that are mappings. *)
Definition adjective_name (s : data) : list str :=
  match s with
  | DDict s => [strip (py_str (get s "name" empty))]
  | _ => []
  end.

(** The [misc] line of a palace, when it has adjective stars. *)
Definition misc_lines (p : gmap string data) : result (list str) :=
  let adjective := get p "adjectiveStars" none in
  if truth adjective then
    match iterate adjective with
    | Raise e => Raise e
    | Return items =>
      let adj_names := non_empty (items ≫= adjective_name) in
      Return [py "  misc: " ++ join_or_dash adj_names]
    end
  else Return [].

(** The line of the two cyclical-stage labels, when one is present. *)
Definition stage_lines (p : gmap string data) : list str :=
  let c := get p "changsheng12" empty in
  let b := get p "boshi12" empty in
  let cs12 := strip (py_str (if truth c then c else empty)) in
  let bs12 := strip (py_str (if truth b then b else empty)) in
  match cs12, bs12 with
  | [], [] => []
  | _, _ =>
    [py "  changsheng12: " ++ or_text cs12 (py "-")
     ++ py "  boshi12: " ++ or_text bs12 (py "-")]
  end.

(** The flags and the header line of a palace entry. *)
Definition palace_flags (p : gmap string data) : list str :=
  (if truth (get p "isBodyPalace" none) then [py "body"] else [])
  ++ (if truth (get p "isOriginalPalace" none) then [py "origin"] else []).

Definition palace_header (p : gmap string data) : str :=
  let name := or_text (strip (py_str (get p "name" empty))) (py "?") in
  let hs := strip (py_str (get p "heavenlyStem" empty)) in
  let eb := strip (py_str (get p "earthlyBranch" empty)) in
  py "- " ++ name ++ py " " ++ hs ++ eb ++ flag_txt (palace_flags p).

(** The body of the loop over the palaces: the lines of one item. *)
Definition palace_lines (p : data) : result (list str) :=
  match p with
  | DDict p =>
    match _format_star_list (get p "majorStars" none) with
    | Raise e => Raise e
    | Return major =>
      match _format_star_list (get p "minorStars" none) with
      | Raise e => Raise e
      | Return minor =>
        match misc_lines p with
        | Raise e => Raise e
        | Return misc =>
          Return ([palace_header p; py "  major: " ++ major;
                   py "  minor: " ++ minor] ++ misc ++ stage_lines p)
        end
      end
    end
  | _ => Return []
  end.

(** The text of the lines: joined by line feeds, trailing white space
    removed, one line feed added. *)
Definition finish (lines : list str) : str :=
  rstrip (join [0x0A] lines) ++ [0x0A].

Definition render_text (data : gmap string data) : result str :=
  let lines := field_lines data in
  match get data "palaces" (DList []) with
  | DList (p :: ps) =>
    match for_each palace_lines (p :: ps) with
    | Raise e => Raise e
    | Return blocks =>
      Return (finish (lines ++ [[]; py "Palaces:"] ++ concat blocks))
    end
  | _ => Return (finish lines)
  end.

End WithRepr.

(** The shapes of the data, against which the renderer is compared. *)

Definition is_dict (d : data) : Prop :=
  match d with DDict _ => True | _ => False end.

#[global] Instance is_dict_dec (d : data) : Decision (is_dict d).
Proof. destruct d; simpl; apply _. Defined.




(** The keys [render_text] reads at the top level, and in a palace. *)
Definition chart_keys : list string :=
  ["solarDate"; "lunarDate"; "chineseDate"; "time"; "timeRange"; "zodiac";
   "sign"; "earthlyBranchOfSoulPalace"; "earthlyBranchOfBodyPalace"; "soul";
   "body"; "fiveElementsClass"; "palaces"]%string.

Definition palace_keys : list string :=
  ["name"; "heavenlyStem"; "earthlyBranch"; "isBodyPalace";
   "isOriginalPalace"; "majorStars"; "minorStars"; "adjectiveStars";
   "changsheng12"; "boshi12"]%string.

(** The scalar entries of a mapping. *)
Definition scalars (p : gmap string data) : gmap string value :=
  omap (fun d => match d with Scalar v => Some v | _ => None end) p.

End RenderText.

(** ** Sample engines and inputs

    Entry points, requests and palaces on which the properties below are
    evaluated. *)

Module Stubs.
Import Ziwei.

(** Rejects every call: a signature mismatch whatever the keywords. *)
Definition rejecting_stub : callable unit unit :=
  fun _ _ s => (Raise (TypeError (py "unexpected keyword argument")), s).

(** Accepts at most two optional keywords, and returns the keywords it
    was called with. *)
Definition two_keyword_stub : callable unit (gmap string value) :=
  fun _ kwargs s =>
    if bool_decide (size kwargs ≤ 2)%nat then (Return kwargs, s)
    else (Raise (TypeError (py "unexpected keyword argument")), s).

(** Rejects every optional keyword as a signature mismatch, and refuses
    the date once it is called without any. *)
Definition strict_stub : callable unit unit :=
  fun _ kwargs s =>
    if bool_decide (kwargs = ∅)
    then (Raise (ValueError (py "invalid date")), s)
    else (Raise (TypeError (py "unexpected keyword argument")), s).

(** Rejects every call and numbers its rejections: the state counts the
    calls received so far. *)
Definition numbering_stub : callable nat unit :=
  fun _ _ n =>
    (Raise (TypeError (py "rejected call #" ++ [0x30 + N.of_nat n])), Datatypes.S n).

(** Accepts only a call without optional keywords, and returns the
    positional arguments it was given. *)
Definition positional_stub : callable unit (list value) :=
  fun args kwargs s =>
    if bool_decide (kwargs = ∅) then (Return args, s)
    else (Raise (TypeError (py "unexpected keyword argument")), s).

(** Fails inside the engine, whatever the arguments. *)
Definition broken_stub : callable unit unit :=
  fun _ _ s => (Raise (RuntimeError (py "engine failure")), s).

(** The request of the built-in self test. *)
Definition selftest_request : ChartRequest :=
  {| calendar := py "solar"; date := py "2000-8-16"; time_index := 2;
     gender := Some (py "male"); language := py "zh-CN";
     is_leap_month := false; fix_leap := true |}.

Definition selftest_args : list value :=
  [VStr (py "2000-8-16"); VInt 2; VStr (py "男")].

(** The same birth data given by the lunar calendar. *)
Definition lunar_request : ChartRequest :=
  {| calendar := py "lunar"; date := py "2000-7-17"; time_index := 2;
     gender := Some (py "male"); language := py "zh-CN";
     is_leap_month := false; fix_leap := true |}.

Definition lunar_args : list value :=
  [VStr (py "2000-7-17"); VInt 2; VStr (py "男")].

(** An engine whose [by_solar] and [by_lunar] are the given callable. *)
Definition engine_with {S R} (fn : callable S R) : option (@astro_module S R) :=
  Some {| by_solar := Some fn; bySolar := None;
          by_lunar := Some fn; byLunar := None |}.

(** The keys of [keys] that [kwargs] carries, in order: the retries of the
    loop, were all of them to fail. *)
Definition present (kwargs : gmap string value) (keys : list string)
  : list string :=
  filter (fun key => is_Some (kwargs !! key)) keys.

(** A palace object of the engine and its exported entry: the body flag
    set, the original-palace flag cleared (left out of the entry). *)
Definition body_palace_object : gmap string value :=
  <["is_body_palace" := VBool true]>
  (<["is_original_palace" := VBool false]> ∅).

Definition body_palace_entry : gmap string value :=
  <["isBodyPalace" := VBool true]> ∅.

End Stubs.

(** ** Further sample engines *)

Module MoreStubs.
Import Ziwei.

(** An engine that records the calls of each of its entry points. *)
Definition recording_engine {S R} (a : @astro_module S R)
  : @astro_module (S * list call) R :=
  {| by_solar := recording <$> by_solar a;
     bySolar := recording <$> bySolar a;
     by_lunar := recording <$> by_lunar a;
     byLunar := recording <$> byLunar a |}.

(** Does not know the keyword [fixLeap]: a signature mismatch whenever it
    is given, and otherwise the keywords it was called with. *)
Definition snake_case_stub : callable unit (gmap string value) :=
  fun _ kwargs s =>
    match kwargs !! "fixLeap" with
    | Some _ => (Raise (TypeError (py "unexpected keyword argument 'fixLeap'")), s)
    | None => (Return kwargs, s)
    end.

(** Rejects the full call as a signature mismatch and fails inside the
    engine as soon as a keyword is left out. *)
Definition fragile_stub : callable unit unit :=
  fun _ kwargs s =>
    if bool_decide (size kwargs = 3)%nat
    then (Raise (TypeError (py "unexpected keyword argument")), s)
    else (Raise (RuntimeError (py "engine failure")), s).

(** Returns the name it was built with, whatever the arguments. *)
Definition named_stub (name : str) : callable unit str :=
  fun _ _ s => (Return name, s).

(** An engine with all four entry points, each returning its own name. *)
Definition full_engine : @astro_module unit str :=
  {| by_solar := Some (named_stub (py "by_solar"));
     bySolar := Some (named_stub (py "bySolar"));
     by_lunar := Some (named_stub (py "by_lunar"));
     byLunar := Some (named_stub (py "byLunar")) |}.

(** An engine of the older naming only. *)
Definition camel_engine : @astro_module unit str :=
  {| by_solar := None;
     bySolar := Some (named_stub (py "bySolar"));
     by_lunar := None;
     byLunar := Some (named_stub (py "byLunar")) |}.

End MoreStubs.

(** ** [src/render.py]: the stars of the primary renderer

    The primary renderer reads the objects of the engine.  An object is
    modelled by its attributes: an attribute is a plain value or a method.
    A method carries the text [str] gives for it and what a call with the
    language, or with no argument, returns or raises; its result is plain
    data.  Reading an attribute does not raise. *)

Module RenderObjects.
Import RenderText.

Inductive attr : Type :=
| Field (d : data)
| Method (text : str) (call : option str -> result data).

Section WithRepr.
Variable repr : data -> str.

(** [_t(obj, method, language)] *)
Definition _t (obj : gmap string attr) (method : string) (language : str)
  : result str :=
  match obj !! method with
  | Some (Method _ fn) =>
    let v :=
      match fn (Some language) with
      | Return v => Return v
      | Raise e => if is_TypeError e then fn None else Raise e
      end in
    match v with
    | Raise e => Raise e
    | Return (Scalar VNone) => Return []
    | Return v => Return (strip (py_str repr v))
    end
  | _ => Return []
  end.

(** [str(getattr(obj, name, ""))] *)
Definition attr_text (obj : gmap string attr) (name : string) : str :=
  match obj !! name with
  | None => []
  | Some (Field d) => py_str repr d
  | Some (Method text _) => text
  end.

(** The body of the loop of [_render_stars]: what one star appends. *)
Definition star_item (language : str) (s : gmap string attr)
  : result (list str) :=
  match _t s "translate_name" language with
  | Raise e => Raise e
  | Return translated =>
    let name := or_text translated (strip (attr_text s "name")) in
    match _t s "translate_brightness" language with
    | Raise e => Raise e
    | Return brightness =>
      match brightness, name with
      | _ :: _, _ => Return [name ++ py "(" ++ brightness ++ py ")"]
      | [], _ :: _ => Return [name]
      | [], [] => Return []
      end
    end
  end.

Definition _render_stars (stars : list (gmap string attr)) (language : str)
  : result str :=
  match for_each (star_item language) stars with
  | Raise e => Raise e
  | Return appended =>
    match concat appended with
    | [] => Return (py "-")
    | items => Return (join (py ", ") (non_empty items))
    end
  end.

End WithRepr.

End RenderObjects.

(** ** Sample charts *)

Module RenderSamples.
Import RenderText.

(** A star entry with the given name and brightness. *)
Definition star (name brightness : str) : data :=
  DDict (<["name" := Scalar (VStr name)]>
         (<["brightness" := Scalar (VStr brightness)]> ∅)).

(** A palace entry; its list of adjective stars holds a stray number. *)
Definition sample_entries : gmap string data :=
  <["name" := Scalar (VStr (py "命宫"))]>
  (<["heavenlyStem" := Scalar (VStr (py "甲"))]>
  (<["isBodyPalace" := Scalar (VBool true)]>
  (<["majorStars" := DList [star (py "紫微") (py "庙"); star [] (py "x");
                            star (py "天机") []]]>
  (<["adjectiveStars" := DList [star (py "a") []; Scalar (VInt 3)]]>
  (<["boshi12" := Scalar (VInt 12)]> ∅))))).

Definition sample_palace : data := DDict sample_entries.

(** An exported chart: a padded date, a field left [None], and a list of
    palaces that starts with a stray [None]. *)
Definition sample_chart : gmap string data :=
  <["solarDate" := Scalar (VStr (py " 2000-8-16 "))]>
  (<["sign" := Scalar VNone]>
  (<["palaces" := DList [Scalar VNone; sample_palace]]> ∅)).

(** A chart whose only palace has a number in the place of its major
    stars. *)
Definition broken_chart : gmap string data :=
  <["palaces" := DList [DDict (<["majorStars" := Scalar (VInt 3)]> ∅)]]> ∅.

(** A star object of the engine: its name, and two translation methods,
    the first of which takes no language. *)
Definition sample_star : gmap string RenderObjects.attr :=
  <["name" := RenderObjects.Field (Scalar (VStr (py "ziwei")))]>
  (<["translate_name" :=
       RenderObjects.Method (py "<bound method>")
         (fun language =>
            match language with
            | Some _ => Raise (TypeError (py "takes 1 positional argument"))
            | None => Return (Scalar (VStr (py " 紫微 ")))
            end)]>
  (<["translate_brightness" :=
       RenderObjects.Method (py "<bound method>")
         (fun _ => Return (Scalar (VStr (py "庙"))))]> ∅)).

(** A representation of lists and mappings that shows nothing. *)
Definition no_repr : data -> str := fun _ => [].

End RenderSamples.

(** * Properties *)

(** ** Strings *)

Section StringFacts.

Lemma split_no_sep (sep : N) (s : str) : sep ∉ s -> split sep s = [s].
Proof.
  induction s as [|c r IH]; intros Hs; [reflexivity|].
  apply not_elem_of_cons in Hs as [Hc Hr]. simpl.
  destruct (N.eqb_spec c sep) as [->|_]; [done|].
  by rewrite (IH Hr).
Qed.

Lemma split_app (sep : N) (a b : str) :
  sep ∉ a -> split sep (a ++ sep :: b) = a :: split sep b.
Proof.
  induction a as [|c r IH]; intros Ha; simpl.
  - by rewrite N.eqb_refl.
  - apply not_elem_of_cons in Ha as [Hc Hr].
    destruct (N.eqb_spec c sep) as [->|_]; [done|].
    by rewrite (IH Hr).
Qed.

Lemma split_join (sep : N) (parts : list str) :
  parts ≠ [] -> Forall (fun p => sep ∉ p) parts ->
  split sep (join [sep] parts) = parts.
Proof.
  induction parts as [|x r IH]; intros Hne Hall; [done|].
  apply Forall_cons in Hall as [Hx Hr].
  destruct r as [|y r].
  - simpl. by apply split_no_sep.
  - change (join [sep] (x :: y :: r)) with (x ++ sep :: join [sep] (y :: r)).
    rewrite (split_app _ _ _ Hx). f_equal. by apply IH.
Qed.

Example py_hangul : py "남자" = [0xB0A8; 0xC790].
Proof. reflexivity. Qed.

Example py_ideographs : py "男女" = [0x7537; 0x5973].
Proof. reflexivity. Qed.

Example strip_lower_sample (ucd : unicode_db) :
  lower ucd (strip (py "  MaLe 남 ")) = py "male 남".
Proof. vm_compute; reflexivity. Qed.

Example split_samples :
  split 0x3A (py "12:30:00") = [py "12"; py "30"; py "00"]
  /\ split 0x3A (py "noon") = [py "noon"]
  /\ split 0x3A (py "") = [py ""].
Proof. repeat apply conj; reflexivity. Qed.

Example int_samples (ucd : unicode_db) :
  int ucd (py " 07 ") = Some 7%Z /\ int ucd (py "-1_0") = Some (-10)%Z
  /\ int ucd (py "1__0") = None /\ int ucd (py "+ 5") = None
  /\ int ucd (py "") = None /\ int ucd (py "1.5") = None
  /\ int ucd (py "0x1F") = None.
Proof. repeat apply conj; vm_compute; reflexivity. Qed.

Example hhmm_to_index_samples (ucd : unicode_db) :
  Time.hhmm_to_index ucd (Some (py "03:00")) = Return 2%Z
  /\ Time.hhmm_to_index ucd (Some (py " 23:59 ")) = Return 0%Z
  /\ Time.hhmm_to_index ucd (Some (py "0:15")) = Return 12%Z
  /\ Time.hhmm_to_index ucd (Some (py "22:10")) = Return 11%Z.
Proof. repeat apply conj; vm_compute; reflexivity. Qed.

Lemma rstrip_snoc (s : str) (c : N) :
  isspace c = false -> rstrip (s ++ [c]) = s ++ [c].
Proof.
  intros Hc. unfold rstrip. rewrite rev_app_distr. simpl. rewrite Hc.
  simpl. by rewrite rev_involutive.
Qed.

End StringFacts.

(** ** The time-bucket converter *)

Module TimeFacts.
Import Time.

Local Open Scope Z_scope.

(** On valid input the two range checks pass. *)
Lemma time_to_index_valid (hour minute : Z) :
  0 <= hour <= 23 -> 0 <= minute <= 59 ->
  time_to_index hour minute =
  if hour =? 23 then Return 0
  else if hour =? 0 then Return 12
  else Return ((hour - 1) / 2 + 1).
Proof.
  intros Hh Hm. unfold time_to_index.
  replace ((0 <=? hour) && (hour <=? 23))%bool with true
    by (symmetry; apply andb_true_iff; split; apply Z.leb_le; lia).
  replace ((0 <=? minute) && (minute <=? 59))%bool with true
    by (symmetry; apply andb_true_iff; split; apply Z.leb_le; lia).
  reflexivity.
Qed.

(** C3.  For a valid hour and minute, [time_to_index] returns bucket 0
    at hour 23, bucket 12 at hour 0 and [(hour - 1) // 2 + 1] at hours
    1..22 ([Z.div] rounds down, as [//] does), and the minute does not
    change the bucket. *)
Theorem time_to_index_bucket (hour minute : Z) :
  0 <= hour <= 23 -> 0 <= minute <= 59 ->
  (hour = 23 -> time_to_index hour minute = Return 0)
  /\ (hour = 0 -> time_to_index hour minute = Return 12)
  /\ (1 <= hour <= 22 ->
      time_to_index hour minute = Return ((hour - 1) / 2 + 1))
  /\ (forall minute', 0 <= minute' <= 59 ->
      time_to_index hour minute' = time_to_index hour minute).
Proof.
  intros Hh Hm. repeat apply conj.
  - intros ->. by rewrite time_to_index_valid.
  - intros ->. by rewrite time_to_index_valid.
  - intros H. rewrite (time_to_index_valid _ _ Hh Hm).
    destruct (Z.eqb_spec hour 23); [lia|].
    destruct (Z.eqb_spec hour 0); [lia|]. reflexivity.
  - intros m' Hm'. by rewrite !time_to_index_valid.
Qed.

Lemma time_to_index_bucket_witness :
  time_to_index 5 0 = Return ((5 - 1) / 2 + 1)
  /\ time_to_index 5 59 = time_to_index 5 0.
Proof.
  destruct (time_to_index_bucket 5 0) as (_ & _ & H3 & H4); [lia|lia|].
  split; [apply H3; lia | apply H4; lia].
Defined.

(** C10.  Every bucket 0..12 is the image of a valid hour and minute, and
    every valid hour and minute is sent to a bucket in 0..12. *)
Theorem time_to_index_onto :
  (forall b, 0 <= b <= 12 ->
     exists hour minute, 0 <= hour <= 23 /\ 0 <= minute <= 59
                         /\ time_to_index hour minute = Return b)
  /\ (forall hour minute, 0 <= hour <= 23 -> 0 <= minute <= 59 ->
        exists b, time_to_index hour minute = Return b /\ 0 <= b <= 12).
Proof.
  split.
  - intros b Hb.
    destruct (Z.eq_dec b 0) as [->|H0]; [by exists 23, 0|].
    destruct (Z.eq_dec b 12) as [->|H12]; [by exists 0, 0|].
    exists (2 * b - 1), 0. split; [lia|]. split; [lia|].
    rewrite time_to_index_valid by lia.
    destruct (Z.eqb_spec (2 * b - 1) 23); [lia|].
    destruct (Z.eqb_spec (2 * b - 1) 0); [lia|]. f_equal.
    replace (2 * b - 1 - 1) with ((b - 1) * 2) by lia.
    rewrite Z.div_mul by lia. lia.
  - intros hour minute Hh Hm. rewrite (time_to_index_valid _ _ Hh Hm).
    destruct (Z.eqb_spec hour 23); [exists 0; split; [done|lia]|].
    destruct (Z.eqb_spec hour 0); [exists 12; split; [done|lia]|].
    exists ((hour - 1) / 2 + 1). split; [done|].
    assert (0 <= (hour - 1) / 2) by (apply Z.div_pos; lia).
    assert ((hour - 1) / 2 < 11) by (apply Z.div_lt_upper_bound; lia).
    lia.
Qed.

Lemma time_to_index_onto_witness :
  (exists hour minute, 0 <= hour <= 23 /\ 0 <= minute <= 59
                       /\ time_to_index hour minute = Return 7)
  /\ (exists b, time_to_index 14 30 = Return b /\ 0 <= b <= 12).
Proof.
  destruct time_to_index_onto as [Hsurj Hrange].
  split; [apply Hsurj; lia | apply Hrange; lia].
Defined.

End TimeFacts.

(** ** The time parser *)

Module ParseFacts.
Import Time.

Section WithUnicode.
Variable ucd : unicode_db.

Lemma parse_hhmm_parts (value : str) (parts : list str) :
  colon_parts (strip value) parts -> split 0x3A (strip value) = parts.
Proof.
  intros (Hne & Hall & ->). by apply split_join.
Qed.

Lemma hhmm_to_index_raise (value : option str) (e : exception) :
  parse_hhmm ucd value = Raise e -> hhmm_to_index ucd value = Raise e.
Proof. intros H. unfold hhmm_to_index. by rewrite H. Qed.

Lemma parse_hhmm_malformed (value : str) :
  malformed ucd (strip value) ->
  exists msg, msg ∈ parse_errors
              /\ parse_hhmm ucd (Some value) = Raise (ValueError msg).
Proof.
  unfold parse_errors.
  intros [parts Hparts Hlen | h m Hparts Hint
         | h m hour minute Hparts Hh Hm Hrange];
    apply parse_hhmm_parts in Hparts; unfold parse_hhmm; rewrite Hparts.
  - exists (py "time must be in HH:MM format"). split; [apply list_elem_of_here|].
    destruct parts as [|? [|? [|? ?]]]; simpl in Hlen; try reflexivity; lia.
  - exists (py "time must be numeric HH:MM").
    split; [apply list_elem_of_further, list_elem_of_here|].
    destruct Hint as [-> | ->]; [reflexivity | by destruct (int ucd h)].
  - rewrite Hh, Hm.
    destruct (negb ((0 <=? hour)%Z && (hour <=? 23)%Z)) eqn:E1.
    { exists (py "hour must be 0..23"). split; [|reflexivity].
      do 2 apply list_elem_of_further. apply list_elem_of_here. }
    destruct (negb ((0 <=? minute)%Z && (minute <=? 59)%Z)) eqn:E2.
    { exists (py "minute must be 0..59"). split; [|reflexivity].
      do 3 apply list_elem_of_further. apply list_elem_of_here. }
    exfalso. apply Hrange.
    apply negb_false_iff, andb_true_iff in E1 as [?%Z.leb_le ?%Z.leb_le].
    apply negb_false_iff, andb_true_iff in E2 as [?%Z.leb_le ?%Z.leb_le].
    lia.
Qed.

End WithUnicode.

(** Closes [colon_parts text parts] for literal texts by evaluation. *)
Ltac literal_parts :=
  split; [discriminate|];
  split; [repeat constructor; apply (bool_decide_eq_false_1 _); vm_compute;
          reflexivity
         |vm_compute; reflexivity].

(** C6.  A malformed time text -- a wrong number of colon-separated
    parts, a part that is not an integer, or an hour outside 0..23 or a
    minute outside 0..59 -- makes [parse_hhmm] raise a [ValueError], so
    that [hhmm_to_index] raises it too and never reaches the bucket
    computation; this covers the five sample texts of the specification. *)
Theorem hhmm_to_index_rejects_malformed (ucd : unicode_db) :
  (forall value, malformed ucd (strip value) ->
     exists msg, msg ∈ parse_errors
       /\ parse_hhmm ucd (Some value) = Raise (ValueError msg)
       /\ hhmm_to_index ucd (Some value) = Raise (ValueError msg))
  /\ Forall (fun value =>
       malformed ucd (strip value)
       /\ exists msg, hhmm_to_index ucd (Some value) = Raise (ValueError msg))
     [py "25:00"; py "12:61"; py "noon"; py "12-30"; py "12:30:00"].
Proof.
  assert (Hgen : forall value, malformed ucd (strip value) ->
     exists msg, msg ∈ parse_errors
       /\ parse_hhmm ucd (Some value) = Raise (ValueError msg)
       /\ hhmm_to_index ucd (Some value) = Raise (ValueError msg)).
  { intros value Hbad.
    destruct (parse_hhmm_malformed ucd value Hbad) as (msg & Hin & Hp).
    exists msg. split; [exact Hin|]. split; [exact Hp|].
    by apply hhmm_to_index_raise. }
  split; [exact Hgen|].
  assert (Hsamples : Forall (fun value => malformed ucd (strip value))
    [py "25:00"; py "12:61"; py "noon"; py "12-30"; py "12:30:00"]).
  { repeat apply Forall_cons_2; [| | | | |apply Forall_nil_2].
    - apply (out_of_range ucd _ (py "25") (py "00") 25 0);
        [literal_parts|vm_compute; reflexivity|vm_compute; reflexivity|lia].
    - apply (out_of_range ucd _ (py "12") (py "61") 12 61);
        [literal_parts|vm_compute; reflexivity|vm_compute; reflexivity|lia].
    - apply (wrong_part_count ucd _ [py "noon"]);
        [literal_parts|simpl; lia].
    - apply (wrong_part_count ucd _ [py "12-30"]);
        [literal_parts|simpl; lia].
    - apply (wrong_part_count ucd _ [py "12"; py "30"; py "00"]);
        [literal_parts|simpl; lia]. }
  eapply Forall_impl; [exact Hsamples|].
  intros value Hbad. split; [exact Hbad|].
  destruct (Hgen value Hbad) as (msg & _ & _ & H). by exists msg.
Qed.

Lemma hhmm_to_index_rejects_malformed_witness :
  malformed plain_db (strip (py " 7:60 "))
  /\ exists msg, msg ∈ parse_errors
       /\ parse_hhmm plain_db (Some (py " 7:60 ")) = Raise (ValueError msg)
       /\ hhmm_to_index plain_db (Some (py " 7:60 ")) = Raise (ValueError msg).
Proof.
  assert (Hbad : malformed plain_db (strip (py " 7:60 "))).
  { apply (out_of_range plain_db _ (py "7") (py "60") 7 60);
      [literal_parts|vm_compute; reflexivity|vm_compute; reflexivity|lia]. }
  split; [exact Hbad|].
  exact (proj1 (hhmm_to_index_rejects_malformed plain_db) _ Hbad).
Defined.

End ParseFacts.

(** ** The gender normaliser *)

Module GenderFacts.
Import Ziwei.

Lemma isspace_range (c : N) : isspace c = true -> c <= 0x20 \/ 0x85 <= c.
Proof.
  unfold isspace.
  rewrite !orb_true_iff, !andb_true_iff, !N.leb_le, !N.eqb_eq. lia.
Qed.

Lemma lstrip_spaces (ws s : str) :
  Forall (fun c => isspace c = true) ws -> lstrip (ws ++ s) = lstrip s.
Proof.
  induction 1 as [|c ws Hc _ IH]; [reflexivity|]. simpl. by rewrite Hc.
Qed.

Lemma rstrip_spaces (s ws : str) :
  Forall (fun c => isspace c = true) ws -> rstrip (s ++ ws) = rstrip s.
Proof.
  intros Hws. unfold rstrip. rewrite rev_app_distr, lstrip_spaces; [done|].
  by apply Forall_rev.
Qed.

Lemma strip_padding (ws1 ws2 s : str) :
  Forall (fun c => isspace c = true) ws1 ->
  Forall (fun c => isspace c = true) ws2 ->
  strip (ws1 ++ s ++ ws2) = strip s.
Proof.
  intros H1 H2. unfold strip. rewrite (lstrip_spaces _ _ H1).
  induction s as [|c r IH]; simpl.
  - rewrite <- (app_nil_r ws2), (lstrip_spaces _ _ H2). reflexivity.
  - destruct (isspace c); [exact IH|].
    by rewrite (app_comm_cons r ws2 c), rstrip_spaces.
Qed.

Lemma lower_from_ascii (ucd : unicode_db) (before s : str) :
  Forall (fun c => c < 0x80) s -> lower_from ucd before s = map ascii_lower s.
Proof.
  intros Hs. revert before. induction Hs as [|c r Hc _ IH]; intros before.
  - reflexivity.
  - simpl. rewrite IH. unfold lower_char, ascii_lower.
    destruct ((0x41 <=? c) && (c <=? 0x5A)); [reflexivity|].
    by rewrite (proj2 (N.ltb_lt c 0x80) Hc).
Qed.

Lemma isspace_ascii_lower (c : N) : isspace (ascii_lower c) = isspace c.
Proof.
  unfold ascii_lower.
  destruct ((0x41 <=? c) && (c <=? 0x5A)) eqn:E; [|reflexivity].
  apply andb_true_iff in E as [Hlo%N.leb_le Hhi%N.leb_le].
  destruct (isspace (c + 0x20)) eqn:E1; [apply isspace_range in E1; lia|].
  destruct (isspace c) eqn:E2; [apply isspace_range in E2; lia|].
  reflexivity.
Qed.

Lemma lstrip_ascii_lower (s : str) :
  lstrip (map ascii_lower s) = map ascii_lower (lstrip s).
Proof.
  induction s as [|c r IH]; [reflexivity|].
  cbn [map lstrip]. rewrite isspace_ascii_lower, IH.
  by destruct (isspace c).
Qed.

Lemma strip_ascii_lower (s : str) :
  strip (map ascii_lower s) = map ascii_lower (strip s).
Proof.
  unfold strip, rstrip.
  by rewrite lstrip_ascii_lower, <- map_rev, lstrip_ascii_lower, map_rev.
Qed.

Lemma lstrip_Forall (P : N -> Prop) (s : str) :
  Forall P s -> Forall P (lstrip s).
Proof.
  induction 1 as [|c r Hc Hr IH]; [constructor|].
  simpl. destruct (isspace c); [exact IH|by constructor].
Qed.

Lemma strip_Forall (P : N -> Prop) (s : str) :
  Forall P s -> Forall P (strip s).
Proof.
  intros Hs. unfold strip, rstrip.
  by apply Forall_rev, lstrip_Forall, Forall_rev, lstrip_Forall.
Qed.

(** C5.  [normalize_gender] trims and lower-cases its input and matches it
    against the two fixed token sets: the listed male spellings give the
    male token, the female ones the female token, every input gives one of
    the two tokens or the [ValueError] that names the accepted forms
    (as for [other] and the empty text), white space around the input
    and the case of ASCII letters do not matter, and [None] gives a
    different [ValueError]. *)
Theorem normalize_gender_tokens (ucd : unicode_db) :
  Forall (fun v => normalize_gender ucd (Some v) = Return (py "男"))
    [py "male"; py "Male"; py " MALE "; py "m"; py "남"; py "남자"; py "男"]
  /\ Forall (fun v => normalize_gender ucd (Some v) = Return (py "女"))
    [py "female"; py "Female"; py " FEMALE "; py "f"; py "여"; py "여자";
     py "女"]
  /\ (forall v,
        (lower ucd (strip v) ∈ male
         /\ normalize_gender ucd (Some v) = Return (py "男"))
        \/ (lower ucd (strip v) ∈ female
            /\ normalize_gender ucd (Some v) = Return (py "女"))
        \/ ((lower ucd (strip v) ∉ male) /\ (lower ucd (strip v) ∉ female)
            /\ normalize_gender ucd (Some v)
               = Raise (ValueError
                   (py "gender must be one of: male/female, 남/여"))))
  /\ (forall ws1 ws2 v,
        Forall (fun c => isspace c = true) ws1 ->
        Forall (fun c => isspace c = true) ws2 ->
        normalize_gender ucd (Some (ws1 ++ v ++ ws2))
        = normalize_gender ucd (Some v))
  /\ (forall v w,
        Forall (fun c => c < 0x80) v -> Forall (fun c => c < 0x80) w ->
        map ascii_lower v = map ascii_lower w ->
        normalize_gender ucd (Some v) = normalize_gender ucd (Some w))
  /\ normalize_gender ucd (Some (py "other"))
     = Raise (ValueError (py "gender must be one of: male/female, 남/여"))
  /\ normalize_gender ucd (Some (py ""))
     = Raise (ValueError (py "gender must be one of: male/female, 남/여"))
  /\ normalize_gender ucd None = Raise (ValueError (py "gender is required"))
  /\ py "gender is required" <> py "gender must be one of: male/female, 남/여".
Proof.
  split; [repeat apply Forall_cons_2; [..|apply Forall_nil_2];
          vm_compute; reflexivity|].
  split; [repeat apply Forall_cons_2; [..|apply Forall_nil_2];
          vm_compute; reflexivity|].
  split.
  { intros v. unfold normalize_gender.
    destruct (bool_decide (lower ucd (strip v) ∈ male)) eqn:Em.
    { left. split; [apply bool_decide_eq_true in Em; exact Em|reflexivity]. }
    apply bool_decide_eq_false in Em. right.
    destruct (bool_decide (lower ucd (strip v) ∈ female)) eqn:Ef.
    { left. split; [apply bool_decide_eq_true in Ef; exact Ef|reflexivity]. }
    apply bool_decide_eq_false in Ef. right.
    split; [exact Em|]. split; [exact Ef|reflexivity]. }
  split.
  { intros ws1 ws2 v H1 H2. unfold normalize_gender.
    rewrite strip_padding by assumption. reflexivity. }
  split.
  { intros v w Hv Hw Hcase. unfold normalize_gender, lower.
    rewrite !lower_from_ascii by (by apply strip_Forall).
    by rewrite <- !strip_ascii_lower, Hcase. }
  split; [vm_compute; reflexivity|].
  split; [vm_compute; reflexivity|].
  split; [reflexivity|].
  intros H. vm_compute in H. discriminate H.
Qed.

Lemma normalize_gender_tokens_witness :
  normalize_gender plain_db (Some ([0x09] ++ py "Woman" ++ [0x3000; 0x0A]))
  = normalize_gender plain_db (Some (py "Woman")).
Proof.
  destruct (normalize_gender_tokens plain_db) as (_ & _ & _ & Hpad & _).
  apply Hpad; repeat constructor.
Defined.

(** C8.  The two tokens [normalize_gender] returns are themselves accepted
    inputs, so normalising a result gives the same token again. *)
Theorem normalize_gender_idempotent (ucd : unicode_db) (v r : str) :
  normalize_gender ucd (Some v) = Return r ->
  normalize_gender ucd (Some r) = Return r
  /\ py "男" ∈ male /\ py "女" ∈ female.
Proof.
  intros H. split.
  - unfold normalize_gender in H. cbv zeta in H.
    destruct (bool_decide (lower ucd (strip v) ∈ male)).
    { injection H as <-. vm_compute; reflexivity. }
    destruct (bool_decide (lower ucd (strip v) ∈ female)).
    { injection H as <-. vm_compute; reflexivity. }
    discriminate H.
  - split; apply (bool_decide_eq_true_1 _); vm_compute; reflexivity.
Qed.

Lemma normalize_gender_idempotent_witness :
  normalize_gender plain_db (Some (py " Female")) = Return (py "女")
  /\ normalize_gender plain_db (Some (py "女")) = Return (py "女").
Proof.
  assert (H : normalize_gender plain_db (Some (py " Female")) = Return (py "女"))
    by (vm_compute; reflexivity).
  split; [exact H|].
  exact (proj1 (normalize_gender_idempotent plain_db _ _ H)).
Defined.

End GenderFacts.

(** ** The adaptive invoker *)

Module InvokerFacts.
Import Ziwei Stubs.

Section Invoker.
Context {S R : Type}.
Implicit Types (fn : callable S R) (args : list value)
  (kwargs : gmap string value) (keys : list string) (s : S).

Lemma call_astro_unfold fn args kwargs s :
  _call_astro fn args kwargs s =
  match fn args kwargs s with
  | (Return r, s1) => (Return r, s1)
  | (Raise exc, s1) =>
    if is_TypeError exc then
      match retry_dropping fn args kwargs optional_keys s1 with
      | (Return (Some r), s2) => (Return r, s2)
      | (Return None, s2) =>
        match fn args ∅ s2 with
        | (Return r, s3) => (Return r, s3)
        | (Raise e, s3) =>
          if is_TypeError e then (Raise exc, s3) else (Raise e, s3)
        end
      | (Raise e, s2) => (Raise e, s2)
      end
    else (Raise exc, s1)
  end.
Proof.
  unfold _call_astro, try_except_TypeError, mbind, M_bind, bind, mret, M_ret,
    ret, raise.
  destruct (fn args kwargs s) as [[r|exc] s1]; [reflexivity|].
  destruct (is_TypeError exc); [|reflexivity].
  destruct (retry_dropping fn args kwargs optional_keys s1) as [[[r|]|e] s2];
    reflexivity.
Qed.

Lemma retry_dropping_cons fn args kwargs key keys s :
  retry_dropping fn args kwargs (key :: keys) s =
  match kwargs !! key with
  | None => retry_dropping fn args kwargs keys s
  | Some _ =>
    match fn args (delete key kwargs) s with
    | (Return r, s1) => (Return (Some r), s1)
    | (Raise e, s1) =>
      if is_TypeError e then retry_dropping fn args kwargs keys s1
      else (Raise e, s1)
    end
  end.
Proof.
  simpl. destruct (kwargs !! key); [|reflexivity].
  unfold try_except_TypeError, mbind, M_bind, bind, mret, M_ret, ret.
  destruct (fn args (delete key kwargs) s) as [[r|e] s1]; reflexivity.
Qed.

End Invoker.

Section Recording.
Context {S R : Type}.
Implicit Types (fn : callable S R) (args : list value)
  (kwargs : gmap string value) (keys : list string) (s : S)
  (log : list call).

Lemma recording_call fn args kwargs s log :
  recording fn args kwargs (s, log) =
  ((fn args kwargs s).1, ((fn args kwargs s).2, log ++ [(args, kwargs)])).
Proof. unfold recording. simpl. by destruct (fn args kwargs s). Qed.

(** Recording the calls changes neither the outcome nor the state of the
    callable. *)
Lemma recording_retry_dropping fn args kwargs keys s log :
  exists calls,
    retry_dropping (recording fn) args kwargs keys (s, log) =
    ((retry_dropping fn args kwargs keys s).1,
     ((retry_dropping fn args kwargs keys s).2, log ++ calls)).
Proof.
  revert s log. induction keys as [|key keys IH]; intros s log.
  - exists []. by rewrite app_nil_r.
  - rewrite (retry_dropping_cons fn), (retry_dropping_cons (recording fn)).
    destruct (kwargs !! key); [|apply IH].
    rewrite recording_call.
    destruct (fn args (delete key kwargs) s) as [[r|e] s1]; cbn [fst snd].
    + by eexists.
    + destruct (is_TypeError e); [|by eexists].
      destruct (IH s1 (log ++ [(args, delete key kwargs)])) as [calls ->].
      eexists. by rewrite <- app_assoc.
Qed.

Lemma recording_call_astro fn args kwargs s log :
  exists calls,
    _call_astro (recording fn) args kwargs (s, log) =
    ((_call_astro fn args kwargs s).1,
     ((_call_astro fn args kwargs s).2, log ++ calls)).
Proof.
  rewrite (call_astro_unfold fn), (call_astro_unfold (recording fn)),
    recording_call.
  destruct (fn args kwargs s) as [[r|exc] s1]; cbn [fst snd]; [by eexists|].
  destruct (is_TypeError exc); [|by eexists].
  destruct (recording_retry_dropping fn args kwargs optional_keys s1
              (log ++ [(args, kwargs)])) as [calls ->].
  destruct (retry_dropping fn args kwargs optional_keys s1) as [[[r|]|e] s2];
    cbn [fst snd];
    [eexists; by rewrite <- app_assoc| |eexists; by rewrite <- app_assoc].
  rewrite recording_call.
  destruct (fn args ∅ s2) as [[r|e] s3]; cbn [fst snd].
  - eexists. by rewrite <- !app_assoc.
  - destruct (is_TypeError e); eexists; by rewrite <- !app_assoc.
Qed.

(** When every retry is rejected as a signature mismatch, the loop makes
    one attempt per optional key that [kwargs] carries, in the order of
    [keys], and runs to its end. *)
Lemma retry_dropping_rejected fn args kwargs keys s log :
  (forall key s1, key ∈ keys -> is_Some (kwargs !! key) ->
     exists e s2, fn args (delete key kwargs) s1 = (Raise e, s2)
                  /\ is_TypeError e = true) ->
  exists s',
    retry_dropping (recording fn) args kwargs keys (s, log) =
    (Return None,
     (s', log ++ map (fun key => (args, delete key kwargs))
                     (present kwargs keys))).
Proof.
  revert s log. induction keys as [|key keys IH]; intros s log Hrej.
  - exists s. simpl. by rewrite app_nil_r.
  - rewrite retry_dropping_cons. unfold present. rewrite filter_cons.
    destruct (kwargs !! key) as [v|] eqn:Hkey.
    + rewrite decide_True by eauto. rewrite recording_call.
      destruct (Hrej key s) as (e & s2 & -> & He);
        [apply list_elem_of_here|eauto|]. simpl. rewrite He.
      destruct (IH s2 (log ++ [(args, delete key kwargs)])) as [s' ->].
      { intros k s1 Hk. apply Hrej. by apply list_elem_of_further. }
      exists s'. by rewrite <- app_assoc.
    + rewrite decide_False by (intros [? ?]; congruence).
      apply IH. intros k s1 Hk. apply Hrej. by apply list_elem_of_further.
Qed.

End Recording.


Section Outcomes.
Context {S R : Type}.
Implicit Types (fn : callable S R) (args : list value)
  (kwargs : gmap string value) (keys : list string) (s : S).

Lemma retry_dropping_rejected_plain fn args kwargs keys s :
  (forall key s1, key ∈ keys -> is_Some (kwargs !! key) ->
     exists e s2, fn args (delete key kwargs) s1 = (Raise e, s2)
                  /\ is_TypeError e = true) ->
  exists s', retry_dropping fn args kwargs keys s = (Return None, s').
Proof.
  intros Hrej.
  destruct (retry_dropping_rejected fn args kwargs keys s [] Hrej) as [s' H].
  destruct (recording_retry_dropping fn args kwargs keys s []) as [calls H'].
  rewrite H in H'. injection H' as H1 H2 _.
  exists s'. rewrite (surjective_pairing (retry_dropping _ _ _ _ _)).
  by rewrite <- H1, <- H2.
Qed.

(** C9.  When the first, fullest call raises an exception that is not a
    [TypeError], [_call_astro] raises that exception at once: the entry
    point has been called exactly once. *)
Theorem call_astro_propagates_other_errors fn args kwargs s e s1 :
  fn args kwargs s = (Raise e, s1) -> is_TypeError e = false ->
  _call_astro fn args kwargs s = (Raise e, s1)
  /\ forall log,
       _call_astro (recording fn) args kwargs (s, log)
       = (Raise e, (s1, log ++ [(args, kwargs)])).
Proof.
  intros Hcall He. split.
  - by rewrite call_astro_unfold, Hcall, He.
  - intros log.
    by rewrite call_astro_unfold, recording_call, Hcall; cbn [fst snd]; rewrite He.
Qed.

(** C2, as amended.  When the full call fails and every retry with one
    optional keyword removed and the final positional-only call fail with
    a [TypeError], [_call_astro] raises the exception of the first, full
    call. *)
Theorem call_astro_surfaces_original fn args kwargs s exc s1 :
  fn args kwargs s = (Raise exc, s1) ->
  (forall key s', key ∈ optional_keys -> is_Some (kwargs !! key) ->
     exists e s'', fn args (delete key kwargs) s' = (Raise e, s'')
                   /\ is_TypeError e = true) ->
  (forall s', exists e s'', fn args ∅ s' = (Raise e, s'')
                            /\ is_TypeError e = true) ->
  exists s2, _call_astro fn args kwargs s = (Raise exc, s2).
Proof.
  intros Hcall Hretry Hlast. rewrite call_astro_unfold, Hcall.
  destruct (is_TypeError exc); [|by eexists].
  destruct (retry_dropping_rejected_plain fn args kwargs optional_keys s1 Hretry)
    as [s2 ->].
  destruct (Hlast s2) as (e & s3 & -> & ->). by eexists.
Qed.

(** The loop against an entry point that rejects every optional keyword
    and accepts a call without any: either every retry is rejected and the
    loop runs to its end, or [kwargs] holds a single optional keyword and
    the retry without it is the accepted call. *)
Lemma retry_dropping_positional fn args kwargs keys s log :
  (forall kw s1, kw <> ∅ ->
     exists e s2, fn args kw s1 = (Raise e, s2) /\ is_TypeError e = true) ->
  (forall s1, exists r s2, fn args ∅ s1 = (Return r, s2)) ->
  exists calls, Forall (fun c : call => c.2 <> ∅) calls /\
    ((exists s', retry_dropping (recording fn) args kwargs keys (s, log)
                 = (Return None, (s', log ++ calls))
                 /\ calls = map (fun key => (args, delete key kwargs))
                                (present kwargs keys))
     \/ (exists r s1 s2, fn args ∅ s1 = (Return r, s2)
           /\ retry_dropping (recording fn) args kwargs keys (s, log)
              = (Return (Some r), (s2, log ++ calls ++ [(args, ∅)]))
           /\ size kwargs = 1%nat)).
Proof.
  intros Hrej Hacc. revert s log.
  induction keys as [|key keys IH]; intros s log.
  - exists []. split; [constructor|]. left. exists s.
    by rewrite app_nil_r.
  - rewrite retry_dropping_cons. unfold present. rewrite filter_cons.
    destruct (kwargs !! key) as [v|] eqn:Hkey.
    2:{ rewrite decide_False by (intros [? ?]; congruence). apply IH. }
    rewrite decide_True by eauto. rewrite recording_call.
    destruct (decide (delete key kwargs = ∅)) as [Hempty|Hmore].
    + exists []. split; [constructor|]. right.
      rewrite Hempty. destruct (Hacc s) as (r & s2 & Hr).
      exists r, s, s2. rewrite Hr. cbn [fst snd].
      split; [reflexivity|]. split; [reflexivity|].
      pose proof (map_size_delete_Some key kwargs (mk_is_Some _ _ Hkey)) as Hsz.
      rewrite Hempty, map_size_empty in Hsz.
      assert (size kwargs <> 0%nat); [|lia].
      apply map_size_non_empty_iff. intros ->. by rewrite lookup_empty in Hkey.
    + destruct (Hrej _ s Hmore) as (e & s2 & -> & He). cbn [fst snd].
      rewrite He.
      destruct (IH s2 (log ++ [(args, delete key kwargs)]))
        as (calls & Hcalls & [(s' & -> & Heq) | (r & s1 & s3 & Hr & -> & Hsz)]).
      * exists ((args, delete key kwargs) :: calls).
        split; [by constructor|]. left. exists s'.
        split; [by rewrite <- app_assoc|]. by rewrite Heq.
      * exists ((args, delete key kwargs) :: calls).
        split; [by constructor|]. right. exists r, s1, s3.
        split; [done|]. split; [|done]. by rewrite <- !app_assoc.
Qed.

(** C4.  Against an entry point that raises a [TypeError] whenever it is
    given an optional keyword and returns when it is given none,
    [_call_astro] returns what the entry point returns for the positional
    arguments alone: that call is the last one made, every call before it
    carried optional keywords, and with two or more keywords in [kwargs]
    it is the final positional-only attempt, made after the full call and
    one retry per optional keyword present. *)
Theorem call_astro_positional_fallback fn args kwargs s :
  (forall kw s1, kw <> ∅ ->
     exists e s2, fn args kw s1 = (Raise e, s2) /\ is_TypeError e = true) ->
  (forall s1, exists r s2, fn args ∅ s1 = (Return r, s2)) ->
  exists r s1 s2 calls,
    fn args ∅ s1 = (Return r, s2)
    /\ _call_astro fn args kwargs s = (Return r, s2)
    /\ _call_astro (recording fn) args kwargs (s, [])
       = (Return r, (s2, calls ++ [(args, ∅)]))
    /\ Forall (fun c : call => c.2 <> ∅) calls
    /\ ((2 <= size kwargs)%nat ->
        calls = (args, kwargs)
                :: map (fun key => (args, delete key kwargs))
                       (present kwargs optional_keys)).
Proof.
  intros Hrej Hacc.
  assert (Hplain : forall r s2 log,
    _call_astro (recording fn) args kwargs (s, []) = (Return r, (s2, log)) ->
    _call_astro fn args kwargs s = (Return r, s2)).
  { intros r s2 log H.
    destruct (recording_call_astro fn args kwargs s []) as [calls H'].
    rewrite H in H'. injection H' as H1 H2 _.
    rewrite (surjective_pairing (_call_astro fn args kwargs s)).
    by rewrite <- H1, <- H2. }
  assert (Hrec : exists r s1 s2 calls,
    fn args ∅ s1 = (Return r, s2)
    /\ _call_astro (recording fn) args kwargs (s, [])
       = (Return r, (s2, calls ++ [(args, ∅)]))
    /\ Forall (fun c : call => c.2 <> ∅) calls
    /\ ((2 <= size kwargs)%nat ->
        calls = (args, kwargs)
                :: map (fun key => (args, delete key kwargs))
                       (present kwargs optional_keys))).
  { rewrite call_astro_unfold, recording_call.
    destruct (decide (kwargs = ∅)) as [->|Hne].
    { destruct (Hacc s) as (r & s2 & Hr). exists r, s, s2, [].
      rewrite Hr. cbn [fst snd].
      split; [reflexivity|]. split; [reflexivity|]. split; [constructor|].
      rewrite map_size_empty. lia. }
    destruct (Hrej _ s Hne) as (e & s0 & -> & He). cbn [fst snd]. rewrite He.
    rewrite app_nil_l.
    destruct (retry_dropping_positional fn args kwargs optional_keys s0
                [(args, kwargs)] Hrej Hacc)
      as (calls & Hcalls & [(s' & -> & Heq) | (r & s1 & s2 & Hr & -> & Hsz)]).
    - rewrite recording_call. destruct (Hacc s') as (r & s2 & Hr).
      exists r, s', s2, ((args, kwargs) :: calls). rewrite Hr. cbn [fst snd].
      split; [done|]. split; [done|]. split; [by constructor|].
      intros _. by rewrite Heq.
    - exists r, s1, s2, ((args, kwargs) :: calls).
      split; [done|]. split; [done|]. split; [by constructor|]. lia. }
  destruct Hrec as (r & s1 & s2 & calls & H1 & H2 & H3 & H4).
  exists r, s1, s2, calls.
  split; [exact H1|]. split; [by eapply Hplain|]. by split.
Qed.

End Outcomes.

Lemma call_astro_propagates_other_errors_witness :
  _call_astro broken_stub selftest_args (solar_kwargs selftest_request) tt
  = (Raise (RuntimeError (py "engine failure")), tt)
  /\ _call_astro (recording broken_stub) selftest_args
       (solar_kwargs selftest_request) (tt, [])
     = (Raise (RuntimeError (py "engine failure")),
        (tt, [(selftest_args, solar_kwargs selftest_request)])).
Proof.
  destruct (call_astro_propagates_other_errors broken_stub selftest_args
              (solar_kwargs selftest_request) tt
              (RuntimeError (py "engine failure")) tt eq_refl eq_refl)
    as [H1 H2].
  split; [exact H1 | exact (H2 [])].
Defined.

Lemma call_astro_surfaces_original_witness :
  exists n, _call_astro numbering_stub selftest_args
              (solar_kwargs selftest_request) 0%nat
            = (Raise (TypeError (py "rejected call #0")), n).
Proof.
  apply (call_astro_surfaces_original numbering_stub selftest_args
           (solar_kwargs selftest_request) 0%nat
           (TypeError (py "rejected call #0")) 1%nat).
  - reflexivity.
  - intros key n _ _. eexists _, _. split; reflexivity.
  - intros n. eexists _, _. split; reflexivity.
Defined.

(** C2, as stated, fails: the entry point below rejects every optional
    keyword with a [TypeError] and the positional-only call with a
    [ValueError]; every attempt fails, and [_call_astro] raises the
    [ValueError] of the last attempt, not the [TypeError] of the first. *)
Lemma call_astro_surfaces_last_failure :
  strict_stub selftest_args (solar_kwargs selftest_request) tt
  = (Raise (TypeError (py "unexpected keyword argument")), tt)
  /\ Forall (fun key =>
       strict_stub selftest_args (delete key (solar_kwargs selftest_request)) tt
       = (Raise (TypeError (py "unexpected keyword argument")), tt))
     optional_keys
  /\ strict_stub selftest_args ∅ tt = (Raise (ValueError (py "invalid date")), tt)
  /\ _call_astro strict_stub selftest_args (solar_kwargs selftest_request) tt
     = (Raise (ValueError (py "invalid date")), tt).
Proof.
  split; [vm_compute; reflexivity|].
  split; [repeat apply Forall_cons_2; [..|apply Forall_nil_2];
          vm_compute; reflexivity|].
  split; vm_compute; reflexivity.
Qed.

Lemma call_astro_positional_fallback_witness :
  exists r s1 s2 calls,
    positional_stub selftest_args ∅ s1 = (Return r, s2)
    /\ _call_astro positional_stub selftest_args
         (solar_kwargs selftest_request) tt = (Return r, s2)
    /\ _call_astro (recording positional_stub) selftest_args
         (solar_kwargs selftest_request) (tt, [])
       = (Return r, (s2, calls ++ [(selftest_args, ∅)]))
    /\ Forall (fun c : call => c.2 <> ∅) calls
    /\ ((2 <= size (solar_kwargs selftest_request))%nat ->
        calls = (selftest_args, solar_kwargs selftest_request)
                :: map (fun key =>
                          (selftest_args,
                           delete key (solar_kwargs selftest_request)))
                       (present (solar_kwargs selftest_request) optional_keys)).
Proof.
  apply (call_astro_positional_fallback positional_stub selftest_args
           (solar_kwargs selftest_request) tt).
  - intros kw s1 Hne. eexists _, _. unfold positional_stub.
    rewrite (bool_decide_eq_false_2 _ Hne). split; reflexivity.
  - intros s1. eexists _, _. reflexivity.
Defined.

(** C1, on the code.  For the self-test request and an entry point that
    rejects every call, the calls [create_chart] makes are, in order: the
    full call, the call without [language], the call without [fix_leap],
    the call without [fixLeap], the positional-only call; a lunar request
    adds the calls without [is_leap_month] and without [isLeapMonth]
    before the positional-only one.  The attempt that drops the language
    comes first among the retries, not last.  With an entry point that
    accepts any two optional keywords, the chart is therefore computed
    without the language although the call that keeps it and drops
    [fix_leap] would have been accepted. *)
Theorem call_astro_drops_language_first (ucd : unicode_db) :
  let kwargs := solar_kwargs selftest_request in
  let lunar := lunar_kwargs lunar_request in
  (create_chart ucd (engine_with (recording rejecting_stub))
     selftest_request (tt, [])).2.2
  = [(selftest_args, kwargs);
     (selftest_args, delete "language" kwargs);
     (selftest_args, delete "fix_leap" kwargs);
     (selftest_args, delete "fixLeap" kwargs);
     (selftest_args, ∅)]
  /\ (create_chart ucd (engine_with (recording rejecting_stub))
        lunar_request (tt, [])).2.2
     = [(lunar_args, lunar);
        (lunar_args, delete "language" lunar);
        (lunar_args, delete "fix_leap" lunar);
        (lunar_args, delete "fixLeap" lunar);
        (lunar_args, delete "is_leap_month" lunar);
        (lunar_args, delete "isLeapMonth" lunar);
        (lunar_args, ∅)]
  /\ create_chart ucd (engine_with two_keyword_stub) selftest_request tt
     = (Return (delete "language" kwargs), tt)
  /\ two_keyword_stub selftest_args (delete "fix_leap" kwargs) tt
     = (Return (delete "fix_leap" kwargs), tt)
  /\ delete "language" kwargs !! "language" = None
  /\ delete "fix_leap" kwargs !! "language" = Some (VStr (py "zh-CN")).
Proof.
  cbv zeta.
  repeat apply conj; apply (bool_decide_eq_true_1 _); vm_compute; reflexivity.
Qed.

End InvokerFacts.

(** ** The palace header of the text formatter *)

Module RenderFacts.
Import Render Stubs.

Lemma flag_txt_body : flag_txt [py "body"] = py " [body" ++ [0x5D].
Proof. vm_compute; reflexivity. Qed.

Lemma flag_txt_origin : flag_txt [py "origin"] = py " [origin" ++ [0x5D].
Proof. vm_compute; reflexivity. Qed.

Lemma flag_txt_both :
  flag_txt [py "body"; py "origin"] = py " [body origin" ++ [0x5D].
Proof. vm_compute; reflexivity. Qed.

(** C7.  In both renderers the header line of a palace ends with
    [ [body]] when only the body flag holds, with [ [origin]] when only
    the original-palace flag holds, with [ [body origin]] when both hold,
    and carries no bracketed text at all when neither holds. *)
Theorem palace_header_flags (name hs eb : str)
    (obj entry : gmap string value) (body origin : bool) :
  truthy (getattr obj "is_body_palace" (VBool false)) = body ->
  truthy (getattr obj "is_original_palace" (VBool false)) = origin ->
  truthy (dict_get entry "isBodyPalace") = body ->
  truthy (dict_get entry "isOriginalPalace") = origin ->
  match body, origin with
  | true, false =>
    render_chart_header name hs eb obj
    = py "- " ++ name ++ py " " ++ hs ++ eb ++ py " [body]"
    /\ render_text_header name hs eb entry
       = py "- " ++ name ++ py " " ++ hs ++ eb ++ py " [body]"
  | false, true =>
    render_chart_header name hs eb obj
    = py "- " ++ name ++ py " " ++ hs ++ eb ++ py " [origin]"
    /\ render_text_header name hs eb entry
       = py "- " ++ name ++ py " " ++ hs ++ eb ++ py " [origin]"
  | true, true =>
    render_chart_header name hs eb obj
    = py "- " ++ name ++ py " " ++ hs ++ eb ++ py " [body origin]"
    /\ render_text_header name hs eb entry
       = py "- " ++ name ++ py " " ++ hs ++ eb ++ py " [body origin]"
  | false, false =>
    render_chart_header name hs eb obj
    = rstrip (py "- " ++ name ++ py " " ++ hs ++ eb)
    /\ render_text_header name hs eb entry
       = py "- " ++ name ++ py " " ++ hs ++ eb
  end.
Proof.
  intros Hb Ho Hb' Ho'.
  unfold render_chart_header, render_text_header, render_chart_flags,
    render_text_flags.
  rewrite Hb, Ho, Hb', Ho'.
  assert (Hline : forall flags : str,
    rstrip (py "- " ++ name ++ py " " ++ hs ++ eb ++ flags ++ [0x5D])
    = py "- " ++ name ++ py " " ++ hs ++ eb ++ flags ++ [0x5D]).
  { intros flags.
    replace (py "- " ++ name ++ py " " ++ hs ++ eb ++ flags ++ [0x5D])
      with ((py "- " ++ name ++ py " " ++ hs ++ eb ++ flags) ++ [0x5D])
      by (by rewrite <- !app_assoc).
    by apply rstrip_snoc. }
  destruct body, origin; cbn [app].
  - rewrite flag_txt_both.
    change (py " [body origin]") with (py " [body origin" ++ [0x5D]).
    by rewrite Hline.
  - rewrite flag_txt_body.
    change (py " [body]") with (py " [body" ++ [0x5D]).
    by rewrite Hline.
  - rewrite flag_txt_origin.
    change (py " [origin]") with (py " [origin" ++ [0x5D]).
    by rewrite Hline.
  - unfold flag_txt. by rewrite !app_nil_r.
Qed.

Lemma palace_header_flags_witness :
  render_chart_header (py "命宫") (py "甲") (py "子") body_palace_object
  = py "- " ++ py "命宫" ++ py " " ++ py "甲" ++ py "子" ++ py " [body]"
  /\ render_text_header (py "命宫") (py "甲") (py "子") body_palace_entry
     = py "- " ++ py "命宫" ++ py " " ++ py "甲" ++ py "子" ++ py " [body]".
Proof.
  apply (palace_header_flags (py "命宫") (py "甲") (py "子")
           body_palace_object body_palace_entry true false);
    vm_compute; reflexivity.
Defined.

End RenderFacts.

(** * Further properties *)

(** ** [src/time.py]: outcomes of the parser and of the converter *)

Module TimeOutcomes.
Import Time.

Local Open Scope Z_scope.

Lemma range_check (lo hi x : Z) :
  negb ((lo <=? x) && (x <=? hi)) = false <-> lo <= x <= hi.
Proof.
  rewrite negb_false_iff, andb_true_iff, !Z.leb_le. tauto.
Qed.

Lemma time_to_index_range (hour minute : Z) :
  0 <= hour <= 23 -> 0 <= minute <= 59 ->
  exists b, time_to_index hour minute = Return b /\ 0 <= b <= 12.
Proof.
  intros Hh Hm. rewrite (TimeFacts.time_to_index_valid _ _ Hh Hm).
  destruct (Z.eqb_spec hour 23); [exists 0; split; [done|lia]|].
  destruct (Z.eqb_spec hour 0); [exists 12; split; [done|lia]|].
  exists ((hour - 1) / 2 + 1). split; [done|].
  assert (0 <= (hour - 1) / 2) by (apply Z.div_pos; lia).
  assert ((hour - 1) / 2 < 11) by (apply Z.div_lt_upper_bound; lia).
  lia.
Qed.

(** What [parse_hhmm] does on a text, by the shape of its parts. *)
Lemma parse_hhmm_cases (ucd : unicode_db) (value : str) :
  (exists msg, msg ∈ parse_errors
     /\ parse_hhmm ucd (Some value) = Raise (ValueError msg))
  \/ (exists p0 p1 hour minute,
        split 0x3A (strip value) = [p0; p1]
        /\ int ucd p0 = Some hour /\ int ucd p1 = Some minute
        /\ 0 <= hour <= 23 /\ 0 <= minute <= 59
        /\ parse_hhmm ucd (Some value)
           = Return {| hour := hour; minute := minute |}).
Proof.
  unfold parse_hhmm, parse_errors.
  destruct (split 0x3A (strip value)) as [|p0 [|p1 [|p2 ps]]] eqn:Hsplit;
    try (left; eexists; split; [apply list_elem_of_here|reflexivity]).
  destruct (int ucd p0) as [hour|] eqn:H0;
    [|left; eexists; split;
      [apply list_elem_of_further, list_elem_of_here|reflexivity]].
  destruct (int ucd p1) as [minute|] eqn:H1;
    [|left; eexists; split;
      [apply list_elem_of_further, list_elem_of_here|reflexivity]].
  destruct (negb ((0 <=? hour) && (hour <=? 23))) eqn:Eh.
  { left; eexists; split; [|reflexivity].
    do 2 apply list_elem_of_further. apply list_elem_of_here. }
  destruct (negb ((0 <=? minute) && (minute <=? 59))) eqn:Em.
  { left; eexists; split; [|reflexivity].
    do 3 apply list_elem_of_further. apply list_elem_of_here. }
  right. exists p0, p1, hour, minute.
  apply range_check in Eh. apply range_check in Em.
  split; [reflexivity|]. split; [exact H0|]. split; [exact H1|].
  split; [exact Eh|]. split; [exact Em|reflexivity].
Qed.

(** X1.  A [ClockTime] returned by [parse_hhmm] has its hour in 0..23 and
    its minute in 0..59. *)
Theorem parse_hhmm_in_range (ucd : unicode_db) (value : option str)
    (t : ClockTime) :
  parse_hhmm ucd value = Return t ->
  0 <= hour t <= 23 /\ 0 <= minute t <= 59.
Proof.
  destruct value as [value|]; [|discriminate].
  destruct (parse_hhmm_cases ucd value)
    as [(msg & _ & ->) | (p0 & p1 & h & m & _ & _ & _ & Hh & Hm & ->)];
    [discriminate|].
  intros [= <-]. by split.
Qed.

Lemma parse_hhmm_in_range_witness :
  parse_hhmm plain_db (Some (py "9:05")) = Return {| hour := 9; minute := 5 |}
  /\ 0 <= 9 <= 23 /\ 0 <= 5 <= 59.
Proof.
  assert (H : parse_hhmm plain_db (Some (py "9:05"))
              = Return {| hour := 9; minute := 5 |}) by (vm_compute; reflexivity).
  split; [exact H|]. exact (parse_hhmm_in_range plain_db _ _ H).
Defined.

(** X2.  [hhmm_to_index] either returns a bucket in 0..12, the one
    [time_to_index] gives for the parsed time, or raises the [ValueError]
    of [parse_hhmm]: the range checks of [time_to_index] never fail on a
    parsed time. *)
Theorem hhmm_to_index_outcome (ucd : unicode_db) (value : option str) :
  (exists t b, parse_hhmm ucd value = Return t
     /\ time_to_index (hour t) (minute t) = Return b
     /\ hhmm_to_index ucd value = Return b /\ 0 <= b <= 12)
  \/ (exists msg, msg ∈ py "time is required" :: parse_errors
        /\ parse_hhmm ucd value = Raise (ValueError msg)
        /\ hhmm_to_index ucd value = Raise (ValueError msg)).
Proof.
  destruct value as [value|].
  2:{ right. exists (py "time is required").
      split; [apply list_elem_of_here|]. by split. }
  destruct (parse_hhmm_cases ucd value)
    as [(msg & Hin & Hp) | (p0 & p1 & h & m & _ & _ & _ & Hh & Hm & Hp)].
  - right. exists msg. split; [by apply list_elem_of_further|].
    split; [exact Hp|]. unfold hhmm_to_index. by rewrite Hp.
  - left. destruct (time_to_index_range h m Hh Hm) as (b & Hb & Hrange).
    exists {| hour := h; minute := m |}, b.
    split; [exact Hp|]. split; [exact Hb|]. split; [|exact Hrange].
    unfold hhmm_to_index. by rewrite Hp.
Qed.

(** X3.  A text whose two colon-separated parts are integers in range is
    parsed to exactly that hour and minute. *)
Theorem parse_hhmm_wellformed (ucd : unicode_db) (value h m : str)
    (hour minute : Z) :
  colon_parts (strip value) [h; m] ->
  int ucd h = Some hour -> int ucd m = Some minute ->
  0 <= hour <= 23 -> 0 <= minute <= 59 ->
  parse_hhmm ucd (Some value) = Return {| hour := hour; minute := minute |}.
Proof.
  intros Hparts Hh Hm Rh Rm. unfold parse_hhmm.
  rewrite (ParseFacts.parse_hhmm_parts value _ Hparts), Hh, Hm.
  by rewrite (proj2 (range_check 0 23 hour) Rh),
             (proj2 (range_check 0 59 minute) Rm).
Qed.

Lemma parse_hhmm_wellformed_witness :
  parse_hhmm plain_db (Some (py " 21:45"))
  = Return {| hour := 21; minute := 45 |}.
Proof.
  apply (parse_hhmm_wellformed plain_db _ (py "21") (py "45"));
    [ParseFacts.literal_parts|vm_compute; reflexivity|vm_compute; reflexivity
    |lia|lia].
Defined.

(** X4.  [time_to_index] raises for an hour outside 0..23, whatever the
    minute, and for a minute outside 0..59 when the hour is valid: the
    hour is checked first. *)
Theorem time_to_index_rejects (hour minute : Z) :
  (~ 0 <= hour <= 23 ->
   time_to_index hour minute = Raise (ValueError (py "hour must be 0..23")))
  /\ (0 <= hour <= 23 -> ~ 0 <= minute <= 59 ->
      time_to_index hour minute
      = Raise (ValueError (py "minute must be 0..59"))).
Proof.
  unfold time_to_index. split.
  - intros Hh. destruct (negb ((0 <=? hour) && (hour <=? 23))) eqn:E;
      [reflexivity|]. by apply range_check in E.
  - intros Hh Hm. rewrite (proj2 (range_check 0 23 hour) Hh).
    destruct (negb ((0 <=? minute) && (minute <=? 59))) eqn:E;
      [reflexivity|]. by apply range_check in E.
Qed.

Lemma time_to_index_rejects_witness :
  time_to_index 24 75 = Raise (ValueError (py "hour must be 0..23"))
  /\ time_to_index 7 60 = Raise (ValueError (py "minute must be 0..59")).
Proof.
  split.
  - apply (proj1 (time_to_index_rejects 24 75)). lia.
  - apply (proj2 (time_to_index_rejects 7 60)); lia.
Defined.

(** X5.  The hours of a bucket: bucket 0 is hour 23 alone, bucket 12 is
    hour 0 alone, and a bucket [b] in 1..11 is the two hours [2b - 1] and
    [2b]. *)
Theorem time_to_index_hours (hour minute b : Z) :
  time_to_index hour minute = Return b ->
  (b = 0 /\ hour = 23) \/ (b = 12 /\ hour = 0)
  \/ (1 <= b <= 11 /\ (hour = 2 * b - 1 \/ hour = 2 * b)).
Proof.
  unfold time_to_index.
  destruct (negb ((0 <=? hour) && (hour <=? 23))) eqn:Eh; [discriminate|].
  destruct (negb ((0 <=? minute) && (minute <=? 59))) eqn:Em; [discriminate|].
  apply range_check in Eh.
  destruct (Z.eqb_spec hour 23); [intros [= <-]; by left|].
  destruct (Z.eqb_spec hour 0); [intros [= <-]; right; by left|].
  intros [= <-]. right. right.
  pose proof (Z.div_mod (hour - 1) 2 ltac:(lia)) as Hdiv.
  pose proof (Z.mod_pos_bound (hour - 1) 2 ltac:(lia)) as Hmod.
  lia.
Qed.

Lemma time_to_index_hours_witness :
  (7 = 0 /\ 14 = 23) \/ (7 = 12 /\ 14 = 0)
  \/ (1 <= 7 <= 11 /\ (14 = 2 * 7 - 1 \/ 14 = 2 * 7)).
Proof.
  apply (time_to_index_hours 14 30 7). vm_compute; reflexivity.
Defined.

(** X6.  White space around the text does not change what [parse_hhmm]
    and [hhmm_to_index] do. *)
Theorem parse_hhmm_padding (ucd : unicode_db) (ws1 ws2 value : str) :
  Forall (fun c => isspace c = true) ws1 ->
  Forall (fun c => isspace c = true) ws2 ->
  parse_hhmm ucd (Some (ws1 ++ value ++ ws2)) = parse_hhmm ucd (Some value)
  /\ hhmm_to_index ucd (Some (ws1 ++ value ++ ws2))
     = hhmm_to_index ucd (Some value).
Proof.
  intros H1 H2.
  assert (Hp : parse_hhmm ucd (Some (ws1 ++ value ++ ws2))
               = parse_hhmm ucd (Some value)).
  { unfold parse_hhmm. by rewrite GenderFacts.strip_padding. }
  split; [exact Hp|]. unfold hhmm_to_index. by rewrite Hp.
Qed.

Lemma parse_hhmm_padding_witness :
  parse_hhmm plain_db (Some ([0x09; 0x20]%N ++ py "6:30" ++ [0x0A]%N))
  = parse_hhmm plain_db (Some (py "6:30"))
  /\ hhmm_to_index plain_db (Some ([0x09; 0x20]%N ++ py "6:30" ++ [0x0A]%N))
     = hhmm_to_index plain_db (Some (py "6:30")).
Proof.
  apply parse_hhmm_padding; repeat constructor.
Defined.

End TimeOutcomes.

(** ** [src/ziwei.py]: what [create_chart] checks before it calls the engine *)

Module ChartFacts.
Import Ziwei Stubs MoreStubs.

Section CreateChart.
Context {S R : Type}.
Implicit Types (astro : option (@astro_module S R)) (a : @astro_module S R)
  (req : ChartRequest) (s : S).

Lemma index_check (req : ChartRequest) :
  negb ((0 <=? time_index req) && (time_index req <=? 12))%Z = false
  <-> (0 <= time_index req <= 12)%Z.
Proof. apply TimeOutcomes.range_check. Qed.

(** X7.  [create_chart] checks its request before it touches the engine,
    in this order: a time index outside 0..12, a gender that
    [normalize_gender] rejects, a missing engine, a calendar that is
    neither [solar] nor [lunar].  Each one raises and leaves the state of
    the engine as it was. *)
Theorem create_chart_checks_first ucd astro req s :
  (~ (0 <= time_index req <= 12)%Z ->
   create_chart ucd astro req s
   = (Raise (ValueError (py "timeIndex must be 0..12")), s))
  /\ (forall e, (0 <= time_index req <= 12)%Z ->
        normalize_gender ucd (gender req) = Raise e ->
        create_chart ucd astro req s = (Raise e, s))
  /\ (forall g, (0 <= time_index req <= 12)%Z ->
        normalize_gender ucd (gender req) = Return g -> astro = None ->
        create_chart ucd astro req s
        = (Raise (RuntimeError (py
             "Missing dependency: iztro-py. Install with: python -m pip install iztro-py")),
           s))
  /\ (forall g a, (0 <= time_index req <= 12)%Z ->
        normalize_gender ucd (gender req) = Return g -> astro = Some a ->
        calendar req <> py "solar" -> calendar req <> py "lunar" ->
        create_chart ucd astro req s
        = (Raise (ValueError (py "unsupported calendar: " ++ calendar req)), s)).
Proof.
  unfold create_chart. repeat apply conj.
  - intros Hidx.
    destruct (negb ((0 <=? time_index req) && (time_index req <=? 12))%Z)
      eqn:E; [reflexivity|]. by apply index_check in E.
  - intros e Hidx Hg. by rewrite (proj2 (index_check req) Hidx), Hg.
  - intros g Hidx Hg ->. by rewrite (proj2 (index_check req) Hidx), Hg.
  - intros g a Hidx Hg -> Hsolar Hlunar.
    rewrite (proj2 (index_check req) Hidx), Hg.
    by rewrite (bool_decide_eq_false_2 _ Hsolar),
               (bool_decide_eq_false_2 _ Hlunar).
Qed.

(** X8.  The entry point [create_chart] calls: for a solar request
    [by_solar], or [bySolar] when the engine has no [by_solar], whatever
    the lunar entry points are; for a lunar request [by_lunar], or
    [byLunar].  When the engine has neither name the request fails with a
    [RuntimeError] and nothing is called. *)
Theorem create_chart_entry_point ucd a req g s :
  (0 <= time_index req <= 12)%Z ->
  normalize_gender ucd (gender req) = Return g ->
  (calendar req = py "solar" ->
     (forall fn, by_solar a = Some fn ->
        create_chart ucd (Some a) req s
        = _call_astro fn [VStr (date req); VInt (time_index req); VStr g]
            (solar_kwargs req) s)
     /\ (forall fn, by_solar a = None -> bySolar a = Some fn ->
           create_chart ucd (Some a) req s
           = _call_astro fn [VStr (date req); VInt (time_index req); VStr g]
               (solar_kwargs req) s)
     /\ (by_solar a = None -> bySolar a = None ->
         create_chart ucd (Some a) req s
         = (Raise (RuntimeError (py "iztro-py astro.by_solar() not found")), s)))
  /\ (calendar req = py "lunar" ->
        (forall fn, by_lunar a = Some fn ->
           create_chart ucd (Some a) req s
           = _call_astro fn [VStr (date req); VInt (time_index req); VStr g]
               (lunar_kwargs req) s)
        /\ (forall fn, by_lunar a = None -> byLunar a = Some fn ->
              create_chart ucd (Some a) req s
              = _call_astro fn [VStr (date req); VInt (time_index req); VStr g]
                  (lunar_kwargs req) s)
        /\ (by_lunar a = None -> byLunar a = None ->
            create_chart ucd (Some a) req s
            = (Raise (RuntimeError (py "iztro-py astro.by_lunar() not found")),
               s))).
Proof.
  intros Hidx Hg. unfold create_chart.
  rewrite (proj2 (index_check req) Hidx), Hg. split.
  - intros Hcal. rewrite (bool_decide_eq_true_2 _ Hcal).
    repeat apply conj.
    + by intros fn ->.
    + by intros fn -> ->.
    + by intros -> ->.
  - intros Hcal.
    assert (Hns : calendar req <> py "solar").
    { rewrite Hcal. intros H. vm_compute in H. discriminate H. }
    rewrite (bool_decide_eq_false_2 _ Hns), (bool_decide_eq_true_2 _ Hcal).
    repeat apply conj.
    + by intros fn ->.
    + by intros fn -> ->.
    + by intros -> ->.
Qed.

End CreateChart.

Lemma create_chart_checks_first_witness :
  create_chart plain_db (engine_with broken_stub)
    {| calendar := py "solar"; date := py "2000-8-16"; time_index := 13;
       gender := None; language := py "zh-CN";
       is_leap_month := false; fix_leap := true |} tt
  = (Raise (ValueError (py "timeIndex must be 0..12")), tt).
Proof.
  refine (proj1 (create_chart_checks_first plain_db _ _ tt) _). simpl. lia.
Defined.

Lemma create_chart_entry_point_witness :
  create_chart plain_db (Some camel_engine) selftest_request tt
  = _call_astro (named_stub (py "bySolar")) selftest_args
      (solar_kwargs selftest_request) tt.
Proof.
  assert (Hidx : (0 <= time_index selftest_request <= 12)%Z) by (simpl; lia).
  assert (Hg : normalize_gender plain_db (gender selftest_request)
               = Return (py "男")) by (vm_compute; reflexivity).
  destruct (create_chart_entry_point plain_db camel_engine selftest_request
              (py "男") tt Hidx Hg) as [Hsolar _].
  destruct (Hsolar eq_refl) as (_ & Hcamel & _).
  exact (Hcamel _ eq_refl eq_refl).
Defined.

End ChartFacts.

(** ** [src/ziwei.py]: the calls [_call_astro] makes *)

Module InvokerOutcomes.
Import Ziwei Stubs MoreStubs InvokerFacts.

Local Open Scope nat_scope.

Section Calls.
Context {S R : Type}.
Implicit Types (fn : callable S R) (args : list value)
  (kwargs : gmap string value) (keys : list string) (s : S)
  (log : list call).

Lemma present_cons_Some kwargs key keys v :
  kwargs !! key = Some v -> present kwargs (key :: keys) = key :: present kwargs keys.
Proof. intros H. unfold present. rewrite filter_cons, decide_True; eauto. Qed.

Lemma present_cons_None kwargs key keys :
  kwargs !! key = None -> present kwargs (key :: keys) = present kwargs keys.
Proof.
  intros H. unfold present. rewrite filter_cons, decide_False; [done|].
  intros [? ?]; congruence.
Qed.

(** The calls of the retry loop: at most one per optional key present,
    each with the positional arguments unchanged and the keywords of
    [kwargs] but one. *)
Lemma retry_dropping_calls fn args kwargs keys s log :
  exists calls,
    (retry_dropping (recording fn) args kwargs keys (s, log)).2.2 = log ++ calls
    /\ length calls <= length (present kwargs keys)
    /\ Forall (fun c : call => c.1 = args /\ c.2 ⊆ kwargs) calls.
Proof.
  revert s log. induction keys as [|key keys IH]; intros s log.
  - exists []. simpl. rewrite app_nil_r.
    split; [done|]. split; [lia|constructor].
  - rewrite retry_dropping_cons.
    destruct (kwargs !! key) as [v|] eqn:Hkey.
    2:{ rewrite (present_cons_None _ _ _ Hkey). apply IH. }
    rewrite (present_cons_Some _ _ _ _ Hkey), recording_call.
    assert (Hone : Forall (fun c : call => c.1 = args /\ c.2 ⊆ kwargs)
                     [(args, delete key kwargs)]).
    { repeat constructor. apply delete_subseteq. }
    destruct (fn args (delete key kwargs) s) as [[r|e] s1]; cbn [fst snd].
    + exists [(args, delete key kwargs)]. simpl. split; [done|]. split; [lia|done].
    + destruct (is_TypeError e).
      * destruct (IH s1 (log ++ [(args, delete key kwargs)]))
          as (calls & -> & Hlen & Hall).
        exists ((args, delete key kwargs) :: calls).
        rewrite <- app_assoc. split; [done|]. simpl. split; [lia|].
        constructor; [|done]. split; [done|apply delete_subseteq].
      * exists [(args, delete key kwargs)]. simpl. split; [done|].
        split; [lia|done].
Qed.

Lemma call_astro_recorded fn args kwargs s log :
  exists calls,
    (_call_astro (recording fn) args kwargs (s, log)).2.2
    = log ++ (args, kwargs) :: calls
    /\ length calls <= 6
    /\ Forall (fun c : call => c.1 = args /\ c.2 ⊆ kwargs) calls
    /\ (forall r s1, fn args kwargs s = (Return r, s1) -> calls = []).
Proof.
  rewrite call_astro_unfold, recording_call.
  destruct (fn args kwargs s) as [[r|exc] s1] eqn:Hfull; cbn [fst snd].
  { exists []. split; [done|]. split; [simpl; lia|]. split; [constructor|done]. }
  destruct (is_TypeError exc).
  2:{ exists []. split; [done|]. split; [simpl; lia|]. split; [constructor|].
      intros; discriminate. }
  destruct (retry_dropping_calls fn args kwargs optional_keys s1
              (log ++ [(args, kwargs)])) as (calls & Hlog & Hlen & Hall).
  assert (Hfive : length calls <= 5).
  { etrans; [exact Hlen|]. unfold present.
    etrans; [apply length_filter|]. reflexivity. }
  destruct (retry_dropping (recording fn) args kwargs optional_keys
              (s1, log ++ [(args, kwargs)])) as [[[r|]|e] [s2 log2]];
    cbn [fst snd] in Hlog; subst log2.
  - exists calls. cbn [snd]. rewrite <- app_assoc.
    split; [done|]. split; [apply Nat.le_trans with 5; [exact Hfive|lia]|].
    split; [done|]. intros; discriminate.
  - rewrite recording_call.
    exists (calls ++ [(args, ∅)]).
    assert (Hfin : Forall (fun c : call => c.1 = args /\ c.2 ⊆ kwargs)
                     (calls ++ [(args, ∅)])).
    { apply Forall_app. split; [done|]. repeat constructor.
      apply map_empty_subseteq. }
    assert (Hlen' : length (calls ++ [(args, ∅ : gmap string value)]) <= 6).
    { rewrite length_app. simpl.
      apply Nat.le_trans with (5 + 1); [|lia]. by apply Nat.add_le_mono_r. }
    destruct (fn args ∅ s2) as [[r|e] s3]; cbn [fst snd].
    + rewrite <- !app_assoc. split; [done|]. split; [done|]. split; [done|].
      intros; discriminate.
    + destruct (is_TypeError e); cbn [snd]; rewrite <- !app_assoc;
        (split; [done|]; split; [done|]; split; [done|]; intros; discriminate).
  - exists calls. cbn [snd]. rewrite <- app_assoc.
    split; [done|]. split; [apply Nat.le_trans with 5; [exact Hfive|lia]|].
    split; [done|]. intros; discriminate.
Qed.

(** X9.  Whatever the entry point does, [_call_astro] calls it first with
    the arguments it was given, then at most six more times, always with
    the same positional arguments and with keywords taken from [kwargs];
    when the first call returns, it is the only one. *)
Theorem call_astro_calls fn args kwargs s log :
  exists calls,
    (_call_astro (recording fn) args kwargs (s, log)).2.2
    = log ++ (args, kwargs) :: calls
    /\ length calls <= 6
    /\ Forall (fun c : call => c.1 = args /\ c.2 ⊆ kwargs) calls
    /\ (forall r s1, fn args kwargs s = (Return r, s1) -> calls = []).
Proof. apply call_astro_recorded. Qed.

Lemma normalize_gender_token ucd value g :
  normalize_gender ucd value = Return g -> g = py "男" \/ g = py "女".
Proof.
  destruct value as [v|]; [|discriminate]. unfold normalize_gender.
  destruct (bool_decide (lower ucd (strip v) ∈ male)); [intros [= <-]; by left|].
  destruct (bool_decide (lower ucd (strip v) ∈ female));
    [intros [= <-]; by right|discriminate].
Qed.

Lemma solar_kwargs_keys req key :
  is_Some (solar_kwargs req !! key) -> key ∈ optional_keys.
Proof.
  unfold solar_kwargs, optional_keys. intros [v Hv].
  repeat (apply lookup_insert_Some in Hv as [[<- _]|[_ Hv]];
          [set_solver|]).
  by rewrite lookup_empty in Hv.
Qed.

Lemma lunar_kwargs_keys req key :
  is_Some (lunar_kwargs req !! key) -> key ∈ optional_keys.
Proof.
  unfold lunar_kwargs, optional_keys. intros [v Hv].
  repeat (apply lookup_insert_Some in Hv as [[<- _]|[_ Hv]];
          [set_solver|]).
  by rewrite lookup_empty in Hv.
Qed.

(** X10.  Every call [create_chart] makes to an entry point of the engine
    carries the date, a time index in 0..12 and one of the two gender
    tokens as its positional arguments, and no keyword outside
    [optional_keys]. *)
Theorem create_chart_calls ucd (a : @astro_module S R) req s log :
  exists calls,
    (create_chart ucd (Some (recording_engine a)) req (s, log)).2.2
    = log ++ calls
    /\ Forall (fun c : call =>
         (exists g, c.1 = [VStr (date req); VInt (time_index req); VStr g]
                    /\ (g = py "男" \/ g = py "女"))
         /\ (0 <= time_index req <= 12)%Z
         /\ forall key, is_Some (c.2 !! key) -> key ∈ optional_keys) calls.
Proof.
  assert (Hnone : forall st : S * list call,
    st = (s, log) ->
    exists calls, st.2 = log ++ calls
      /\ Forall (fun c : call =>
           (exists g, c.1 = [VStr (date req); VInt (time_index req); VStr g]
                      /\ (g = py "男" \/ g = py "女"))
           /\ (0 <= time_index req <= 12)%Z
           /\ forall key, is_Some (c.2 !! key) -> key ∈ optional_keys) calls).
  { intros st ->. exists []. simpl. rewrite app_nil_r. split; [done|constructor]. }
  assert (Hsome : forall fn kwargs g,
    (0 <= time_index req <= 12)%Z -> g = py "男" \/ g = py "女" ->
    (forall key, is_Some (kwargs !! key) -> key ∈ optional_keys) ->
    exists calls,
      (_call_astro (recording fn)
         [VStr (date req); VInt (time_index req); VStr g] kwargs (s, log)).2.2
      = log ++ calls
      /\ Forall (fun c : call =>
           (exists g, c.1 = [VStr (date req); VInt (time_index req); VStr g]
                      /\ (g = py "男" \/ g = py "女"))
           /\ (0 <= time_index req <= 12)%Z
           /\ forall key, is_Some (c.2 !! key) -> key ∈ optional_keys) calls).
  { intros fn kwargs g Hidx Hg Hkeys.
    destruct (call_astro_recorded fn
                [VStr (date req); VInt (time_index req); VStr g] kwargs s log)
      as (calls & -> & _ & Hall & _).
    exists (([VStr (date req); VInt (time_index req); VStr g], kwargs) :: calls).
    split; [done|]. constructor.
    - split; [by exists g|]. by split.
    - eapply Forall_impl; [exact Hall|]. intros [cargs ckw] [Hargs Hsub].
      simpl in Hargs, Hsub. subst cargs. split; [by exists g|]. split; [done|].
      intros key Hkey. apply Hkeys. simpl in Hkey.
      by eapply lookup_weaken_is_Some. }
  unfold create_chart.
  destruct (negb ((0 <=? time_index req) && (time_index req <=? 12))%Z) eqn:E;
    [by apply Hnone|].
  apply TimeOutcomes.range_check in E.
  destruct (normalize_gender ucd (gender req)) as [g|e] eqn:Hg; [|by apply Hnone].
  apply normalize_gender_token in Hg.
  destruct (bool_decide (calendar req = py "solar")).
  { unfold recording_engine; cbn [by_solar bySolar].
    destruct (by_solar a) as [f1|]; cbn [fmap option_fmap option_map or_else];
      [apply Hsome; [exact E|exact Hg|apply solar_kwargs_keys]|].
    destruct (bySolar a) as [f2|]; cbn [fmap option_fmap option_map or_else];
      [apply Hsome; [exact E|exact Hg|apply solar_kwargs_keys]|by apply Hnone]. }
  destruct (bool_decide (calendar req = py "lunar")); [|by apply Hnone].
  unfold recording_engine; cbn [by_lunar byLunar].
  destruct (by_lunar a) as [f1|]; cbn [fmap option_fmap option_map or_else];
    [apply Hsome; [exact E|exact Hg|apply lunar_kwargs_keys]|].
  destruct (byLunar a) as [f2|]; cbn [fmap option_fmap option_map or_else];
    [apply Hsome; [exact E|exact Hg|apply lunar_kwargs_keys]|by apply Hnone].
Qed.

End Calls.

Section FirstRetry.
Context {S R : Type}.
Implicit Types (fn : callable S R) (args : list value)
  (kwargs : gmap string value) (keys : list string) (s : S).

(** The loop skips the keys [kwargs] does not carry: its first call drops
    the first optional key present, and an exception of that call that is
    not a [TypeError] ends the loop. *)
Lemma retry_dropping_first_error fn args kwargs keys k rest s e s1 :
  present kwargs keys = k :: rest ->
  fn args (delete k kwargs) s = (Raise e, s1) -> is_TypeError e = false ->
  retry_dropping fn args kwargs keys s = (Raise e, s1).
Proof.
  intros Hpresent Hcall He. induction keys as [|key keys IH]; [done|].
  rewrite retry_dropping_cons.
  destruct (kwargs !! key) as [v|] eqn:Hkey.
  - rewrite (present_cons_Some _ _ _ _ Hkey) in Hpresent.
    injection Hpresent as -> _. by rewrite Hcall, He.
  - rewrite (present_cons_None _ _ _ Hkey) in Hpresent. by apply IH.
Qed.

End FirstRetry.

Section Outcomes.
Context {S R : Type}.
Implicit Types (fn : callable S R) (args : list value)
  (kwargs : gmap string value) (keys : list string) (s : S)
  (log : list call).

(** The loop against an entry point that rejects the keyword [k] and
    nothing else: every retry that keeps [k] is rejected, and the retry
    without [k] decides. *)
Lemma retry_dropping_reaches fn args kwargs k v keys s log :
  k ∈ keys -> kwargs !! k = Some v ->
  (forall kw s1, is_Some (kw !! k) ->
     exists e s2, fn args kw s1 = (Raise e, s2) /\ is_TypeError e = true) ->
  (forall s1 e s2, fn args (delete k kwargs) s1 = (Raise e, s2) ->
     is_TypeError e = false) ->
  exists s1 calls,
    Forall (fun c : call => is_Some (c.2 !! k)) calls
    /\ retry_dropping (recording fn) args kwargs keys (s, log)
       = (match (fn args (delete k kwargs) s1).1 with
          | Return r => Return (Some r)
          | Raise e => Raise e
          end,
          ((fn args (delete k kwargs) s1).2,
           log ++ calls ++ [(args, delete k kwargs)])).
Proof.
  intros Hin Hk Hrej Hok. revert s log.
  induction keys as [|key keys IH]; intros s log; [by apply elem_of_nil in Hin|].
  rewrite retry_dropping_cons.
  destruct (decide (key = k)) as [->|Hne].
  - rewrite Hk, recording_call. exists s, []. split; [constructor|].
    destruct (fn args (delete k kwargs) s) as [[r|e] s1] eqn:Hcall;
      cbn [fst snd]; [done|].
    by rewrite (Hok _ _ _ Hcall).
  - apply elem_of_cons in Hin as [->|Hin]; [done|].
    destruct (kwargs !! key) as [w|] eqn:Hkey; [|by apply IH].
    rewrite recording_call.
    destruct (Hrej (delete key kwargs) s) as (e & s2 & -> & He).
    { rewrite lookup_delete_ne by done. eauto. }
    cbn [fst snd]. rewrite He.
    destruct (IH Hin s2 (log ++ [(args, delete key kwargs)]))
      as (s1 & calls & Hall & ->).
    exists s1, ((args, delete key kwargs) :: calls). split.
    + constructor; [|done]. simpl. rewrite lookup_delete_ne by done. eauto.
    + by rewrite <- !app_assoc.
Qed.

(** X11.  When the entry point rejects one optional keyword [k], and
    nothing else, as a signature mismatch, [_call_astro] ends with the
    call that leaves out [k] alone: its outcome is the outcome of that
    call, and every call before it still carried [k]. *)
Theorem call_astro_single_unsupported fn args kwargs k v s :
  k ∈ optional_keys -> kwargs !! k = Some v ->
  (forall kw s1, is_Some (kw !! k) ->
     exists e s2, fn args kw s1 = (Raise e, s2) /\ is_TypeError e = true) ->
  (forall s1 e s2, fn args (delete k kwargs) s1 = (Raise e, s2) ->
     is_TypeError e = false) ->
  exists s1 calls,
    _call_astro fn args kwargs s = fn args (delete k kwargs) s1
    /\ (_call_astro (recording fn) args kwargs (s, [])).2.2
       = calls ++ [(args, delete k kwargs)]
    /\ Forall (fun c : call => is_Some (c.2 !! k)) calls.
Proof.
  intros Hin Hk Hrej Hok.
  assert (Hrec : exists s1 calls,
    _call_astro (recording fn) args kwargs (s, [])
    = ((fn args (delete k kwargs) s1).1,
       ((fn args (delete k kwargs) s1).2, calls ++ [(args, delete k kwargs)]))
    /\ Forall (fun c : call => is_Some (c.2 !! k)) calls).
  { rewrite call_astro_unfold, recording_call.
    destruct (Hrej kwargs s) as (exc & s0 & -> & Hexc); [eauto|].
    cbn [fst snd]. rewrite Hexc, app_nil_l.
    destruct (retry_dropping_reaches fn args kwargs k v optional_keys s0
                [(args, kwargs)] Hin Hk Hrej Hok) as (s1 & calls & Hall & ->).
    exists s1, ((args, kwargs) :: calls). split.
    - destruct (fn args (delete k kwargs) s1) as [[r|e] s2]; by cbn [fst snd].
    - constructor; [simpl; eauto|done]. }
  destruct Hrec as (s1 & calls & Hrun & Hall). exists s1, calls.
  split; [|split; [by rewrite Hrun|done]].
  destruct (recording_call_astro fn args kwargs s []) as [calls' H'].
  rewrite Hrun in H'. injection H' as H1 H2 _.
  rewrite (surjective_pairing (_call_astro fn args kwargs s)),
          (surjective_pairing (fn args (delete k kwargs) s1)).
  by rewrite <- H1, <- H2.
Qed.

(** X12.  When the full call and every retry are rejected as signature
    mismatches and the positional-only call raises an exception that is
    not a [TypeError], [_call_astro] raises that last exception. *)
Theorem call_astro_fallback_error fn args kwargs s exc s1 e :
  fn args kwargs s = (Raise exc, s1) -> is_TypeError exc = true ->
  (forall key s', key ∈ optional_keys -> is_Some (kwargs !! key) ->
     exists e' s'', fn args (delete key kwargs) s' = (Raise e', s'')
                    /\ is_TypeError e' = true) ->
  is_TypeError e = false ->
  (forall s', exists s'', fn args ∅ s' = (Raise e, s'')) ->
  exists s2, _call_astro fn args kwargs s = (Raise e, s2).
Proof.
  intros Hcall Hexc Hretry He Hlast. rewrite call_astro_unfold, Hcall, Hexc.
  destruct (retry_dropping_rejected_plain fn args kwargs optional_keys s1 Hretry)
    as [s2 ->].
  destruct (Hlast s2) as [s3 ->]. rewrite He. by exists s3.
Qed.

(** X13.  When the full call is rejected as a signature mismatch and the
    first retry, the call without the first optional keyword present,
    raises an exception that is not a [TypeError], [_call_astro] raises
    that exception after those two calls: no other keyword is tried and
    there is no positional-only call. *)
Theorem call_astro_retry_error fn args kwargs s exc s1 k rest e s2 :
  fn args kwargs s = (Raise exc, s1) -> is_TypeError exc = true ->
  present kwargs optional_keys = k :: rest ->
  fn args (delete k kwargs) s1 = (Raise e, s2) -> is_TypeError e = false ->
  _call_astro fn args kwargs s = (Raise e, s2)
  /\ forall log,
       _call_astro (recording fn) args kwargs (s, log)
       = (Raise e, (s2, log ++ [(args, kwargs); (args, delete k kwargs)])).
Proof.
  intros Hcall Hexc Hpresent Hretry He. split.
  - rewrite call_astro_unfold, Hcall, Hexc.
    by rewrite (retry_dropping_first_error fn args kwargs optional_keys
                  k rest s1 e s2).
  - intros log. rewrite call_astro_unfold, recording_call, Hcall.
    cbn [fst snd]. rewrite Hexc.
    rewrite (retry_dropping_first_error (recording fn) args kwargs
               optional_keys k rest _ e
               (s2, (log ++ [(args, kwargs)]) ++ [(args, delete k kwargs)]));
      [by rewrite <- app_assoc|done| |done].
    by rewrite recording_call, Hretry.
Qed.

(** X14.  Against an entry point that rejects every attempt as a
    signature mismatch, the attempts are, in order: the full call, one
    call per optional keyword that [kwargs] carries, taken in the order
    of [optional_keys] and each leaving out that keyword alone, and the
    positional-only call. *)
Theorem call_astro_rejected_trace fn args kwargs s exc s1 :
  fn args kwargs s = (Raise exc, s1) -> is_TypeError exc = true ->
  (forall key s', key ∈ optional_keys -> is_Some (kwargs !! key) ->
     exists e s'', fn args (delete key kwargs) s' = (Raise e, s'')
                   /\ is_TypeError e = true) ->
  (forall s', exists e s'', fn args ∅ s' = (Raise e, s'')
                            /\ is_TypeError e = true) ->
  exists s2,
    _call_astro (recording fn) args kwargs (s, [])
    = (Raise exc,
       (s2, (args, kwargs)
            :: map (fun key => (args, delete key kwargs))
                   (present kwargs optional_keys)
            ++ [(args, ∅)])).
Proof.
  intros Hcall Hexc Hretry Hlast.
  rewrite call_astro_unfold, recording_call, Hcall. cbn [fst snd].
  rewrite Hexc, app_nil_l.
  destruct (retry_dropping_rejected fn args kwargs optional_keys s1
              [(args, kwargs)] Hretry) as [s2 ->].
  rewrite recording_call. destruct (Hlast s2) as (e & s3 & -> & He).
  cbn [fst snd]. rewrite He. exists s3. by rewrite <- app_assoc.
Qed.

End Outcomes.

Lemma call_astro_calls_witness :
  exists calls,
    (_call_astro (recording numbering_stub) selftest_args
       (solar_kwargs selftest_request) (0, [])).2.2
    = [] ++ (selftest_args, solar_kwargs selftest_request) :: calls
    /\ length calls <= 6
    /\ Forall (fun c : call =>
         c.1 = selftest_args /\ c.2 ⊆ solar_kwargs selftest_request) calls
    /\ (forall r s1,
          numbering_stub selftest_args (solar_kwargs selftest_request) 0
          = (Return r, s1) -> calls = []).
Proof.
  exact (call_astro_calls numbering_stub selftest_args
           (solar_kwargs selftest_request) 0 []).
Defined.

Lemma create_chart_calls_witness :
  exists calls,
    (create_chart plain_db (Some (recording_engine full_engine))
       lunar_request (tt, [])).2.2 = [] ++ calls
    /\ Forall (fun c : call =>
         (exists g, c.1 = [VStr (date lunar_request);
                           VInt (time_index lunar_request); VStr g]
                    /\ (g = py "男" \/ g = py "女"))
         /\ (0 <= time_index lunar_request <= 12)%Z
         /\ forall key, is_Some (c.2 !! key) -> key ∈ optional_keys) calls.
Proof.
  exact (create_chart_calls plain_db full_engine lunar_request tt []).
Defined.

Lemma call_astro_single_unsupported_witness :
  exists s1 calls,
    _call_astro snake_case_stub selftest_args (solar_kwargs selftest_request) tt
    = snake_case_stub selftest_args
        (delete "fixLeap" (solar_kwargs selftest_request)) s1
    /\ (_call_astro (recording snake_case_stub) selftest_args
          (solar_kwargs selftest_request) (tt, [])).2.2
       = calls ++ [(selftest_args,
                    delete "fixLeap" (solar_kwargs selftest_request))]
    /\ Forall (fun c : call => is_Some (c.2 !! "fixLeap")) calls.
Proof.
  apply (call_astro_single_unsupported snake_case_stub selftest_args
           (solar_kwargs selftest_request) "fixLeap" (VBool true) tt).
  - unfold optional_keys. set_solver.
  - reflexivity.
  - intros kw s1 [w Hw]. eexists _, _. unfold snake_case_stub. rewrite Hw.
    split; reflexivity.
  - intros s1 e s2. unfold snake_case_stub. rewrite lookup_delete_eq.
    discriminate.
Defined.

Lemma call_astro_fallback_error_witness :
  exists s2,
    _call_astro strict_stub selftest_args (solar_kwargs selftest_request) tt
    = (Raise (ValueError (py "invalid date")), s2).
Proof.
  apply (call_astro_fallback_error strict_stub selftest_args
           (solar_kwargs selftest_request) tt
           (TypeError (py "unexpected keyword argument")) tt).
  - apply (bool_decide_eq_true_1 _). vm_compute; reflexivity.
  - reflexivity.
  - intros key s' Hin Hkey. exists (TypeError (py "unexpected keyword argument")), s'.
    split; [|reflexivity]. unfold strict_stub.
    rewrite bool_decide_eq_false_2; [reflexivity|].
    intros Hempty.
    assert (Hsz : size (delete key (solar_kwargs selftest_request)) = 0)
      by (rewrite Hempty; apply map_size_empty).
    rewrite (map_size_delete_Some _ _ Hkey) in Hsz.
    assert (Hthree : size (solar_kwargs selftest_request) = 3)
      by (vm_compute; reflexivity).
    rewrite Hthree in Hsz. discriminate Hsz.
  - reflexivity.
  - intros s'. exists s'. reflexivity.
Defined.

Lemma call_astro_retry_error_witness :
  _call_astro fragile_stub selftest_args (solar_kwargs selftest_request) tt
  = (Raise (RuntimeError (py "engine failure")), tt)
  /\ forall log,
       _call_astro (recording fragile_stub) selftest_args
         (solar_kwargs selftest_request) (tt, log)
       = (Raise (RuntimeError (py "engine failure")),
          (tt, log ++ [(selftest_args, solar_kwargs selftest_request);
                       (selftest_args,
                        delete "language" (solar_kwargs selftest_request))])).
Proof.
  apply (call_astro_retry_error fragile_stub selftest_args
           (solar_kwargs selftest_request) tt
           (TypeError (py "unexpected keyword argument")) tt
           "language" ["fix_leap"; "fixLeap"]%string);
    try (apply (bool_decide_eq_true_1 _); vm_compute; reflexivity);
    reflexivity.
Defined.

Lemma call_astro_rejected_trace_witness :
  exists n,
    _call_astro (recording numbering_stub) lunar_args
      (lunar_kwargs lunar_request) (0, [])
    = (Raise (TypeError (py "rejected call #0")),
       (n, (lunar_args, lunar_kwargs lunar_request)
           :: map (fun key => (lunar_args, delete key (lunar_kwargs lunar_request)))
                  (present (lunar_kwargs lunar_request) optional_keys)
           ++ [(lunar_args, ∅)])).
Proof.
  apply (call_astro_rejected_trace numbering_stub lunar_args
           (lunar_kwargs lunar_request) 0
           (TypeError (py "rejected call #0")) 1).
  - reflexivity.
  - reflexivity.
  - intros key n _ _. eexists _, _. split; reflexivity.
  - intros n. eexists _, _. split; reflexivity.
Defined.

End InvokerOutcomes.

(** ** Stripped texts *)

Section StripFacts.

Lemma lstrip_head (s : str) :
  lstrip s = [] \/ exists c r, lstrip s = c :: r /\ isspace c = false.
Proof.
  induction s as [|c r IH]; [by left|]. simpl.
  destruct (isspace c) eqn:E; [exact IH|]. right. by exists c, r.
Qed.

Lemma lstrip_snoc (s : str) (c : N) :
  isspace c = false -> lstrip (s ++ [c]) = lstrip s ++ [c].
Proof.
  intros Hc. induction s as [|x r IH]; simpl; [by rewrite Hc|].
  by destruct (isspace x).
Qed.

Lemma rstrip_cons (c : N) (r : str) :
  isspace c = false -> rstrip (c :: r) = c :: rstrip r.
Proof.
  intros Hc. unfold rstrip. simpl.
  by rewrite (lstrip_snoc _ _ Hc), rev_app_distr.
Qed.

Lemma lstrip_idem (s : str) : lstrip (lstrip s) = lstrip s.
Proof.
  induction s as [|c r IH]; [reflexivity|]. simpl.
  destruct (isspace c) eqn:E; [exact IH|]. simpl. by rewrite E.
Qed.

Lemma rstrip_idem (s : str) : rstrip (rstrip s) = rstrip s.
Proof. unfold rstrip. by rewrite rev_involutive, lstrip_idem. Qed.

(** A stripped text is empty, or starts with a character that is no
    white space and has no white space at its end. *)
Lemma strip_shape (s : str) :
  strip s = []
  \/ exists c r, strip s = c :: r /\ isspace c = false /\ rstrip r = r.
Proof.
  unfold strip. destruct (lstrip_head s) as [->|(c & r & -> & Hc)]; [by left|].
  right. exists c, (rstrip r). rewrite (rstrip_cons _ _ Hc).
  split; [done|]. split; [done|apply rstrip_idem].
Qed.

Lemma strip_idem (s : str) : strip (strip s) = strip s.
Proof.
  destruct (strip_shape s) as [->|(c & r & -> & Hc & Hr)]; [reflexivity|].
  unfold strip. simpl. rewrite Hc. by rewrite (rstrip_cons _ _ Hc), Hr.
Qed.


End StripFacts.

(** ** [src/render.py]: the star lists of the fallback renderer *)

Module StarFacts.
Import Render RenderText.


Lemma for_each_raises_first {A B} (f : A -> result B) x xs e :
  f x = Raise e -> for_each f (x :: xs) = Raise e.
Proof. intros H. simpl. by rewrite H. Qed.

Lemma join_non_empty (sep x : str) (items : list str) :
  x <> [] -> join sep (x :: items) <> [].
Proof.
  intros Hx. destruct x as [|c x]; [done|]. by destruct items.
Qed.

Lemma join_or_dash_non_empty (items : list str) :
  join_or_dash (non_empty items) <> [].
Proof.
  unfold join_or_dash.
  destruct (non_empty items) as [|x r] eqn:E.
  - intros H. vm_compute in H. discriminate H.
  - apply join_non_empty.
    assert (Hin : x ∈ non_empty items) by (rewrite E; apply list_elem_of_here).
    unfold non_empty in Hin. by apply list_elem_of_filter in Hin as [Hx _].
Qed.

Section WithRepr.
Variable repr : data -> str.




(** X17.  The text [_format_star_list] returns is never empty: it is a
    dash when there is no star to show, and it is a dash in particular
    for nothing and for a list of stars without names. *)
Theorem format_star_list_text (stars : data) (out : str) :
  _format_star_list repr stars = Return out ->
  out <> []
  /\ (truth stars = false -> out = py "-")
  /\ (forall items, stars = DList items ->
      Forall (fun d => _format_star repr d = Return []) items ->
      out = py "-").
Proof.
  unfold _format_star_list. intros H. repeat apply conj.
  - destruct (negb (truth stars)).
    { injection H as <-. intros H. vm_compute in H. discriminate H. }
    destruct (iterate stars) as [items|e]; [|discriminate].
    destruct (for_each (_format_star repr) items) as [ys|e]; [|discriminate].
    injection H as <-. apply join_or_dash_non_empty.
  - intros Hf. rewrite Hf in H. simpl in H. by injection H as <-.
  - intros items -> Hall.
    destruct (negb (truth (DList items))); [by injection H as <-|].
    simpl in H.
    assert (Hys : exists ys, for_each (_format_star repr) items = Return ys
                             /\ Forall (fun y => y = []) ys).
    { clear H. induction Hall as [|d items Hd _ (ys & Hys & Hempty)].
      - exists []. split; [done|constructor].
      - exists ([] :: ys). simpl. rewrite Hd, Hys. split; [done|].
        by constructor. }
    destruct Hys as (ys & Hys & Hempty). rewrite Hys in H.
    injection H as <-.
    assert (Hnone : non_empty ys = []).
    { clear Hys. induction Hempty as [|y ys -> _ IH]; [done|].
      unfold non_empty in *. rewrite filter_cons, decide_False; [exact IH|].
      by intros H. }
    by rewrite Hnone.
Qed.

End WithRepr.

End StarFacts.

(** ** [src/render.py]: the text of the fallback renderer *)

Module RenderTextFacts.
Import Render RenderText RenderSamples StarFacts.

Lemma get_insert_ne (m : gmap string data) (k key : string) (v dflt : data) :
  k <> key -> get (<[k := v]> m) key dflt = get m key dflt.
Proof. intros H. unfold get. by rewrite lookup_insert_ne. Qed.

Lemma get_insert_eq (m : gmap string data) (k : string) (v dflt : data) :
  get (<[k := v]> m) k dflt = v.
Proof. unfold get. by rewrite lookup_insert_eq. Qed.

Section WithRepr.
Variable repr : data -> str.

Example render_text_sample :
  render_text repr sample_chart = Return (py "Solar: 2000-8-16

Palaces:
- 命宫 甲 [body]
  major: 紫微(庙), 天机
  minor: -
  misc: a
  changsheng12: -  boshi12: 12
").
Proof. vm_compute; reflexivity. Qed.

Example render_text_broken :
  render_text repr broken_chart
  = Raise (TypeError (py "'int' object is not iterable")).
Proof. vm_compute; reflexivity. Qed.




(** X19.  The text [render_text] returns ends with one line feed, and
    what stands before it has no white space at its end: no blank line
    and no trailing blank before the final line feed. *)
Theorem render_text_shape (chart : gmap string data) (out : str) :
  render_text repr chart = Return out ->
  exists body, out = body ++ [0x0A] /\ rstrip body = body.
Proof.
  unfold render_text, finish. intros H.
  destruct (get chart "palaces" (DList [])) as [v|[|p ps]|entries];
    try (injection H as <-; eexists; split; [reflexivity|apply rstrip_idem]).
  destruct (for_each (palace_lines repr) (p :: ps)) as [blocks|e];
    [|discriminate].
  injection H as <-. eexists; split; [reflexivity|apply rstrip_idem].
Qed.

(** The loop over the palaces does the same on the items that are
    mappings alone. *)
Lemma for_each_palace_filter (palaces : list data) :
  match for_each (palace_lines repr) palaces with
  | Return blocks =>
    exists blocks',
      for_each (palace_lines repr) (filter is_dict palaces) = Return blocks'
      /\ concat blocks' = concat blocks
  | Raise e => for_each (palace_lines repr) (filter is_dict palaces) = Raise e
  end.
Proof.
  induction palaces as [|p ps IH]; [by exists []|].
  rewrite filter_cons. destruct (decide (is_dict p)) as [Hd|Hd].
  - simpl. destruct (palace_lines repr p) as [l|e]; [|done].
    destruct (for_each (palace_lines repr) ps) as [blocks|e].
    + destruct IH as (blocks' & -> & Heq). exists (l :: blocks').
      split; [done|]. simpl. by rewrite Heq.
    + by rewrite IH.
  - assert (Hskip : palace_lines repr p = Return []) by (by destruct p).
    simpl. rewrite Hskip.
    destruct (for_each (palace_lines repr) ps) as [blocks|e]; [|done].
    destruct IH as (blocks' & -> & Heq). by exists blocks'.
Qed.

Lemma add_kv_insert_ne (chart : gmap string data) (k key : string)
    (v : data) (label : str) :
  k <> key -> add_kv repr (<[k := v]> chart) key label = add_kv repr chart key label.
Proof. intros H. unfold add_kv. by rewrite get_insert_ne. Qed.

Lemma field_lines_insert (chart : gmap string data) (k : string) (v : data) :
  k ∉ take 12 chart_keys ->
  field_lines repr (<[k := v]> chart) = field_lines repr chart.
Proof.
  intros H. cbn [take chart_keys] in H.
  repeat (apply not_elem_of_cons in H as [? H]).
  unfold field_lines. by rewrite !add_kv_insert_ne.
Qed.

(** X20.  Items of [palaces] that are no mappings are skipped: as long as
    one mapping is left, the chart renders as the chart without them.
    When none is left, the heading of the palaces is still written, with
    nothing below it. *)
Theorem render_text_skips (chart : gmap string data) (palaces : list data) :
  get chart "palaces" (DList []) = DList palaces ->
  (filter is_dict palaces <> [] ->
   render_text repr (<["palaces" := DList (filter is_dict palaces)]> chart)
   = render_text repr chart)
  /\ (palaces <> [] -> filter is_dict palaces = [] ->
      render_text repr chart
      = Return (finish (field_lines repr chart ++ [[]; py "Palaces:"]))).
Proof.
  intros Hget. pose proof (for_each_palace_filter palaces) as Hfilter. split.
  - intros Hne. unfold render_text.
    rewrite get_insert_eq, Hget, field_lines_insert
      by (apply (bool_decide_eq_true_1 _); vm_compute; reflexivity).
    destruct palaces as [|p ps]; [done|].
    destruct (filter is_dict (p :: ps)) as [|q qs]; [done|].
    destruct (for_each (palace_lines repr) (p :: ps)) as [blocks|e].
    + destruct Hfilter as (blocks' & -> & ->). reflexivity.
    + by rewrite Hfilter.
  - intros Hne Hnone. unfold render_text. rewrite Hget.
    destruct palaces as [|p ps]; [done|]. rewrite Hnone in Hfilter.
    destruct (for_each (palace_lines repr) (p :: ps)) as [blocks|e].
    + destruct Hfilter as (blocks' & [= <-] & Heq). simpl in Heq.
      by rewrite <- Heq, app_nil_r.
    + discriminate Hfilter.
Qed.

(** X21.  [render_text] reads the thirteen keys of [chart_keys] and, in a
    palace, the ten keys of [palace_keys]: adding or changing any other
    key changes nothing. *)
Theorem render_text_other_keys (key : string) (v : data) :
  (key ∉ chart_keys -> forall chart,
     render_text repr (<[key := v]> chart) = render_text repr chart)
  /\ (key ∉ palace_keys -> forall p,
        palace_lines repr (DDict (<[key := v]> p))
        = palace_lines repr (DDict p)).
Proof.
  split.
  - intros H chart. unfold chart_keys in H.
    repeat (apply not_elem_of_cons in H as [? H]).
    unfold render_text, field_lines.
    rewrite !add_kv_insert_ne by done. by rewrite get_insert_ne.
  - intros H p. unfold palace_keys in H.
    repeat (apply not_elem_of_cons in H as [? H]).
    unfold palace_lines, misc_lines, stage_lines, palace_header, palace_flags.
    by rewrite !get_insert_ne.
Qed.

(** X22.  The header line [render_text] writes for a palace is the line
    [render_text_header] describes, with [?] for a missing name, as long
    as the two flags of the entry are scalars. *)
Theorem palace_header_fragment (p : gmap string data) :
  (forall d, p !! "isBodyPalace" = Some d -> exists v, d = Scalar v) ->
  (forall d, p !! "isOriginalPalace" = Some d -> exists v, d = Scalar v) ->
  palace_header repr p
  = render_text_header
      (or_text (strip (py_str repr (get p "name" empty))) (py "?"))
      (strip (py_str repr (get p "heavenlyStem" empty)))
      (strip (py_str repr (get p "earthlyBranch" empty)))
      (scalars p).
Proof.
  intros Hb Ho.
  assert (Hflag : forall key,
    (forall d, p !! key = Some d -> exists v, d = Scalar v) ->
    truth (get p key none) = truthy (dict_get (scalars p) key)).
  { intros key Hkey. unfold get, dict_get, scalars. rewrite lookup_omap.
    destruct (p !! key) as [d|] eqn:E; [|reflexivity].
    destruct (Hkey d eq_refl) as [v ->]. reflexivity. }
  unfold palace_header, render_text_header, palace_flags, render_text_flags.
  by rewrite (Hflag _ Hb), (Hflag _ Ho).
Qed.

End WithRepr.

Lemma format_star_list_text_witness :
  _format_star_list no_repr (DList [star [] (py "x"); star (py "  ") []])
  = Return (py "-")
  /\ py "-" <> [].
Proof.
  assert (H : _format_star_list no_repr
                (DList [star [] (py "x"); star (py "  ") []])
              = Return (py "-")) by (vm_compute; reflexivity).
  split; [exact H|].
  exact (proj1 (format_star_list_text no_repr _ _ H)).
Defined.

Lemma render_text_shape_witness :
  exists body,
    py "Solar: 2000-8-16

Palaces:
- 命宫 甲 [body]
  major: 紫微(庙), 天机
  minor: -
  misc: a
  changsheng12: -  boshi12: 12
" = body ++ [0x0A] /\ rstrip body = body.
Proof.
  apply (render_text_shape no_repr sample_chart). vm_compute; reflexivity.
Defined.

Lemma render_text_skips_witness :
  render_text no_repr
    (<["palaces" := DList (filter is_dict [Scalar VNone; sample_palace])]>
       sample_chart)
  = render_text no_repr sample_chart.
Proof.
  refine (proj1 (render_text_skips no_repr sample_chart
                   [Scalar VNone; sample_palace] _) _).
  - vm_compute; reflexivity.
  - discriminate.
Defined.

Lemma render_text_other_keys_witness :
  render_text no_repr (<["copyright" := Scalar (VStr (py "x"))]> sample_chart)
  = render_text no_repr sample_chart.
Proof.
  refine (proj1 (render_text_other_keys no_repr "copyright" _) _ sample_chart).
  apply (bool_decide_eq_true_1 _). vm_compute; reflexivity.
Defined.

Lemma palace_header_fragment_witness :
  palace_header no_repr sample_entries
  = render_text_header (py "命宫") (py "甲") [] (scalars sample_entries).
Proof.
  refine (palace_header_fragment no_repr sample_entries _ _).
  - intros d Hd. vm_compute in Hd. injection Hd as <-. by eexists.
  - intros d Hd. vm_compute in Hd. discriminate Hd.
Defined.

End RenderTextFacts.

(** ** [src/render.py]: the stars of the primary renderer *)

Module RenderObjectFacts.
Import RenderText RenderObjects RenderSamples StarFacts.

Lemma non_empty_id (items : list str) :
  Forall (fun x : str => x <> []) items -> non_empty items = items.
Proof.
  unfold non_empty. induction 1 as [|y ys Hy _ IH]; [done|].
  rewrite filter_cons_True by done. by f_equal.
Qed.

Section WithRepr.
Variable repr : data -> str.

Example render_stars_sample :
  _render_stars repr [sample_star; ∅] (py "zh-CN") = Return (py "紫微(庙)").
Proof. vm_compute; reflexivity. Qed.

(** X23.  [_t] gives the empty text when the object has no such method
    (no attribute of that name, or one that is a plain value) and when the
    method returns [None]; any other text it returns has no white space
    around it. *)
Theorem t_text (obj : gmap string attr) (method : string) (language : str) :
  (obj !! method = None -> _t repr obj method language = Return [])
  /\ (forall d, obj !! method = Some (Field d) ->
      _t repr obj method language = Return [])
  /\ (forall text fn, obj !! method = Some (Method text fn) ->
      fn (Some language) = Return (Scalar VNone) ->
      _t repr obj method language = Return [])
  /\ (forall out, _t repr obj method language = Return out -> strip out = out).
Proof.
  unfold _t. repeat apply conj.
  - by intros ->.
  - by intros d ->.
  - by intros text fn -> ->.
  - intros out. destruct (obj !! method) as [[d|text fn]|]; try by intros [= <-].
    destruct (match fn (Some language) with
              | Return v => Return v
              | Raise e => if is_TypeError e then fn None else Raise e
              end) as [v|e]; [|discriminate].
    destruct v as [[| | |]|?|?]; intros [= <-]; try apply strip_idem; done.
Qed.

(** X24.  A method that raises a [TypeError] when it is given the language
    is called again without it, and that second call decides: [_t] does
    what it would do with a method that ignores its argument.  Any other
    exception of the first call is raised as it is. *)
Theorem t_without_language (obj : gmap string attr) (method : string)
    (language text : str) (fn : option str -> result data) (e : exception) :
  obj !! method = Some (Method text fn) ->
  fn (Some language) = Raise e ->
  (is_TypeError e = true ->
   _t repr obj method language
   = _t repr (<[method := Method text (fun _ => fn None)]> obj) method language)
  /\ (is_TypeError e = false -> _t repr obj method language = Raise e).
Proof.
  intros Hm Hfn. unfold _t. rewrite Hm, Hfn, lookup_insert_eq. split.
  - intros ->. destruct (fn None) as [v|e']; [done|].
    by destruct (is_TypeError e').
  - by intros ->.
Qed.

Lemma star_item_non_empty (language : str) (s : gmap string attr)
    (items : list str) :
  star_item repr language s = Return items -> Forall (fun x => x <> []) items.
Proof.
  unfold star_item.
  destruct (_t repr s "translate_name" language) as [translated|e];
    [|discriminate].
  destruct (_t repr s "translate_brightness" language) as [brightness|e];
    [|discriminate].
  destruct brightness as [|c b].
  - destruct (or_text translated (strip (attr_text repr s "name")));
      intros [= <-]; repeat constructor; done.
  - intros [= <-]. repeat constructor. intros H.
    apply app_eq_nil in H as [_ H]. discriminate H.
Qed.

(** X25.  The text [_render_stars] returns is never empty: it is a dash
    when no star has a name or a brightness to show, and every star that
    has one is shown. *)
Theorem render_stars_text (stars : list (gmap string attr)) (language : str)
    (out : str) :
  _render_stars repr stars language = Return out ->
  out <> []
  /\ (Forall (fun s => star_item repr language s = Return []) stars ->
      out = py "-")
  /\ exists appended,
       for_each (star_item repr language) stars = Return appended
       /\ (concat appended <> [] -> out = join (py ", ") (concat appended)).
Proof.
  unfold _render_stars.
  destruct (for_each (star_item repr language) stars) as [appended|e] eqn:E;
    [|discriminate].
  assert (Hall : Forall (fun x : str => x <> []) (concat appended)
                 /\ (Forall (fun s => star_item repr language s = Return [])
                       stars -> concat appended = [])).
  { clear out. revert appended E.
    induction stars as [|s stars IH]; intros appended E.
    - injection E as <-. split; [constructor|done].
    - simpl in E.
      destruct (star_item repr language s) as [items|e] eqn:Hs; [|discriminate].
      destruct (for_each (star_item repr language) stars) as [rest|e];
        [|discriminate].
      injection E as <-. destruct (IH rest eq_refl) as [Hne Himp]. simpl. split.
      + apply Forall_app. split; [by eapply star_item_non_empty|done].
      + intros H. apply Forall_cons in H as [H1 H2].
        rewrite Hs in H1. injection H1 as ->. simpl. by apply Himp. }
  destruct Hall as [Hne Himp].
  destruct (concat appended) as [|x items] eqn:Hitems.
  - intros [= <-]. split; [intros H; vm_compute in H; discriminate H|].
    split; [done|]. exists appended. by rewrite Hitems.
  - intros [= <-].
    rewrite (non_empty_id _ Hne). pose proof Hne as [Hx _]%Forall_cons.
    split; [by apply join_non_empty|].
    split; [intros H; by apply Himp in H|].
    exists appended. by rewrite Hitems.
Qed.

(** X26.  A star without a name but with a brightness is shown by
    [_render_stars] as the bracketed brightness, where the fallback
    [_format_star] shows nothing for a star without a name. *)
Theorem nameless_star_shown (language brightness : str)
    (s : gmap string attr) (star : gmap string data) :
  _t repr s "translate_name" language = Return [] ->
  strip (attr_text repr s "name") = [] ->
  _t repr s "translate_brightness" language = Return brightness ->
  brightness <> [] ->
  strip (py_str repr (get star "name" empty)) = [] ->
  _render_stars repr [s] language = Return (py "(" ++ brightness ++ py ")")
  /\ _format_star repr (DDict star) = Return [].
Proof.
  intros Hn Ha Hb Hne Hstar. split.
  - unfold _render_stars, for_each, star_item. rewrite Hn, Hb, Ha.
    destruct brightness as [|c b]; [done|]. cbn [or_text concat app].
    change (py "(" ++ (c :: b) ++ py ")") with (0x28 :: (c :: b) ++ py ")").
    rewrite non_empty_id; [reflexivity|]. by repeat constructor.
  - unfold _format_star. by rewrite Hstar.
Qed.

End WithRepr.

Lemma t_text_witness :
  _t no_repr sample_star "translate_name" (py "zh-CN") = Return (py "紫微")
  /\ strip (py "紫微") = py "紫微".
Proof.
  assert (H : _t no_repr sample_star "translate_name" (py "zh-CN")
              = Return (py "紫微")) by (vm_compute; reflexivity).
  split; [exact H|].
  destruct (t_text no_repr sample_star "translate_name" (py "zh-CN"))
    as (_ & _ & _ & Hstrip).
  exact (Hstrip _ H).
Defined.

Lemma t_without_language_witness :
  _t no_repr sample_star "translate_name" (py "zh-CN")
  = _t no_repr
      (<["translate_name" :=
           Method (py "<bound method>")
             (fun _ => Return (Scalar (VStr (py " 紫微 "))))]> sample_star)
      "translate_name" (py "zh-CN").
Proof.
  refine (proj1 (t_without_language no_repr sample_star "translate_name"
                   (py "zh-CN") (py "<bound method>") _
                   (TypeError (py "takes 1 positional argument")) _ _) _);
    reflexivity.
Defined.

Lemma render_stars_text_witness :
  _render_stars no_repr [sample_star; ∅] (py "zh-CN") = Return (py "紫微(庙)")
  /\ py "紫微(庙)" <> [].
Proof.
  assert (H : _render_stars no_repr [sample_star; ∅] (py "zh-CN")
              = Return (py "紫微(庙)")) by (vm_compute; reflexivity).
  split; [exact H|].
  exact (proj1 (render_stars_text no_repr _ _ _ H)).
Defined.

Lemma nameless_star_shown_witness :
  _render_stars no_repr [delete "translate_name" (delete "name" sample_star)]
    (py "zh-CN")
  = Return (py "(" ++ py "庙" ++ py ")")
  /\ _format_star no_repr (star [] (py "庙")) = Return [].
Proof.
  apply (nameless_star_shown no_repr (py "zh-CN") (py "庙"));
    try (vm_compute; reflexivity).
  discriminate.
Defined.

End RenderObjectFacts.
